(** * The x264 bridge of mediadevices: [pkg/codec/x264/bridge.h]

    A shallow embedding of the C bridge that drives the x264 engine:
    [enc_new], [apply_target_bitrate], [enc_encode] and [enc_close].

    The bridge owns an [Encoder] structure; the x264 library is an external
    collaborator and is taken as a parameter (record [engine]).  Memory the
    bridge allocates and releases is tracked as a finite set of live blocks,
    and every call into the engine is appended to a log, so that both "this
    block is released" and "this entry point is (not) invoked" are
    statements about the final state. *)

From Stdlib Require Import ZArith QArith String Lia.
From stdpp Require Import base tactics option gmap vector.

#[local] Open Scope Z_scope.

(* ===================================================================== *)
(** ** Error codes (bridge.h, lines 6-11) *)
(* ===================================================================== *)

Definition ERR_DEFAULT_PRESET : Z := -1.
Definition ERR_APPLY_PROFILE : Z := -2.
Definition ERR_ALLOC_PICTURE : Z := -3.
Definition ERR_OPEN_ENGINE : Z := -4.
Definition ERR_ENCODE : Z := -5.
Definition ERR_BITRATE_RECONFIG : Z := -6.

(** [#define RC_MARGIN 10000] (line 82). *)
Definition RC_MARGIN : Z := 10000.

(* ===================================================================== *)
(** ** Values *)
(* ===================================================================== *)

(** The C [int] of the target: 32 bits, two's complement. *)
Definition INT_MIN : Z := - 2 ^ 31.
Definition INT_MAX : Z := 2 ^ 31 - 1.
Definition int_range (z : Z) : Prop := INT_MIN <= z <= INT_MAX.

(** A C [int] used as a condition is true when it is not zero. *)
Definition truthy (z : Z) : bool := negb (z =? 0).

(** Addresses of heap blocks; a C pointer is [NULL] or an address. *)
Definition loc : Type := positive.
Definition ptr : Type := option loc.
Definition NULL : ptr := None.

(** The two [float] fields the bridge assigns hold decimal literals; a float
    field is represented by the rational value of the literal stored in it. *)
Definition cfloat : Type := Q.

(** Frame types and rate-control methods, the symbolic constants of x264.h
    that the bridge stores into [i_type] and [i_rc_method]. *)
Inductive x264_frame_type : Type :=
| X264_TYPE_AUTO | X264_TYPE_IDR | X264_TYPE_I | X264_TYPE_P
| X264_TYPE_BREF | X264_TYPE_B | X264_TYPE_KEYFRAME.

Inductive x264_rc_method : Type :=
| X264_RC_CQP | X264_RC_CRF | X264_RC_ABR.

(** [param.rc]: the rate-control sub-structure of [x264_param_t]. *)
Record x264_rc_t : Type := mk_rc {
  i_rc_method : x264_rc_method;
  i_bitrate : Z;
  f_rate_tolerance : cfloat;
  i_vbv_max_bitrate : Z;
  i_vbv_buffer_size : Z;
  f_vbv_buffer_init : cfloat;
  rc_other : list Z  (* the rate-control fields the bridge never names *)
}.

(** [x264_param_t]: the fields the bridge names, and the rest of the
    structure ([param_other]), which only the engine reads and writes. *)
Record x264_param_t : Type := mk_param {
  i_csp : Z;
  i_width : Z;
  i_height : Z;
  i_fps_num : Z;
  i_fps_den : Z;
  i_keyint_max : Z;
  rc : x264_rc_t;
  b_repeat_headers : Z;
  b_annexb : Z;
  param_other : list Z
}.

(** [x264_image_t]: [i_stride[4]] and [plane[4]] are fixed-size arrays. *)
Record x264_image_t : Type := mk_image {
  img_i_csp : Z;
  i_plane : Z;
  i_stride : vec Z 4;
  plane : vec ptr 4
}.

Record x264_picture_t : Type := mk_picture {
  i_type : x264_frame_type;
  i_pts : Z;
  img : x264_image_t;
  pic_other : list Z
}.

Record x264_nal_t : Type := mk_nal {
  i_payload : Z;
  p_payload : ptr
}.

(** [typedef struct Slice] (lines 13-16). *)
Record Slice : Type := mk_Slice {
  data : ptr;
  data_len : Z
}.

(** [typedef struct Encoder] (lines 18-23). *)
Record Encoder : Type := mk_Encoder {
  h : ptr;
  pic_in : x264_picture_t;
  param : x264_param_t;
  force_key_frame : Z
}.

(** The [char *preset] argument: a heap block and the characters in it. *)
Record cstring : Type := mk_cstring {
  addr : loc;
  chars : string
}.

(** *** Field assignments *)

Definition set_i_bitrate (v : Z) (r : x264_rc_t) : x264_rc_t :=
  mk_rc (i_rc_method r) v (f_rate_tolerance r) (i_vbv_max_bitrate r)
        (i_vbv_buffer_size r) (f_vbv_buffer_init r) (rc_other r).
Definition set_i_rc_method (v : x264_rc_method) (r : x264_rc_t) : x264_rc_t :=
  mk_rc v (i_bitrate r) (f_rate_tolerance r) (i_vbv_max_bitrate r)
        (i_vbv_buffer_size r) (f_vbv_buffer_init r) (rc_other r).
Definition set_f_rate_tolerance (v : cfloat) (r : x264_rc_t) : x264_rc_t :=
  mk_rc (i_rc_method r) (i_bitrate r) v (i_vbv_max_bitrate r)
        (i_vbv_buffer_size r) (f_vbv_buffer_init r) (rc_other r).
Definition set_i_vbv_max_bitrate (v : Z) (r : x264_rc_t) : x264_rc_t :=
  mk_rc (i_rc_method r) (i_bitrate r) (f_rate_tolerance r) v
        (i_vbv_buffer_size r) (f_vbv_buffer_init r) (rc_other r).
Definition set_i_vbv_buffer_size (v : Z) (r : x264_rc_t) : x264_rc_t :=
  mk_rc (i_rc_method r) (i_bitrate r) (f_rate_tolerance r)
        (i_vbv_max_bitrate r) v (f_vbv_buffer_init r) (rc_other r).
Definition set_f_vbv_buffer_init (v : cfloat) (r : x264_rc_t) : x264_rc_t :=
  mk_rc (i_rc_method r) (i_bitrate r) (f_rate_tolerance r)
        (i_vbv_max_bitrate r) (i_vbv_buffer_size r) v (rc_other r).

Definition set_rc (f : x264_rc_t -> x264_rc_t) (p : x264_param_t) : x264_param_t :=
  mk_param (i_csp p) (i_width p) (i_height p) (i_fps_num p) (i_fps_den p)
           (i_keyint_max p) (f (rc p)) (b_repeat_headers p) (b_annexb p)
           (param_other p).
Definition set_i_csp (v : Z) (p : x264_param_t) : x264_param_t :=
  mk_param v (i_width p) (i_height p) (i_fps_num p) (i_fps_den p)
           (i_keyint_max p) (rc p) (b_repeat_headers p) (b_annexb p)
           (param_other p).
Definition set_i_width (v : Z) (p : x264_param_t) : x264_param_t :=
  mk_param (i_csp p) v (i_height p) (i_fps_num p) (i_fps_den p)
           (i_keyint_max p) (rc p) (b_repeat_headers p) (b_annexb p)
           (param_other p).
Definition set_i_height (v : Z) (p : x264_param_t) : x264_param_t :=
  mk_param (i_csp p) (i_width p) v (i_fps_num p) (i_fps_den p)
           (i_keyint_max p) (rc p) (b_repeat_headers p) (b_annexb p)
           (param_other p).
Definition set_i_fps_num (v : Z) (p : x264_param_t) : x264_param_t :=
  mk_param (i_csp p) (i_width p) (i_height p) v (i_fps_den p)
           (i_keyint_max p) (rc p) (b_repeat_headers p) (b_annexb p)
           (param_other p).
Definition set_i_fps_den (v : Z) (p : x264_param_t) : x264_param_t :=
  mk_param (i_csp p) (i_width p) (i_height p) (i_fps_num p) v
           (i_keyint_max p) (rc p) (b_repeat_headers p) (b_annexb p)
           (param_other p).
Definition set_i_keyint_max (v : Z) (p : x264_param_t) : x264_param_t :=
  mk_param (i_csp p) (i_width p) (i_height p) (i_fps_num p) (i_fps_den p)
           v (rc p) (b_repeat_headers p) (b_annexb p) (param_other p).
Definition set_b_repeat_headers (v : Z) (p : x264_param_t) : x264_param_t :=
  mk_param (i_csp p) (i_width p) (i_height p) (i_fps_num p) (i_fps_den p)
           (i_keyint_max p) (rc p) v (b_annexb p) (param_other p).
Definition set_b_annexb (v : Z) (p : x264_param_t) : x264_param_t :=
  mk_param (i_csp p) (i_width p) (i_height p) (i_fps_num p) (i_fps_den p)
           (i_keyint_max p) (rc p) (b_repeat_headers p) v (param_other p).

Definition set_plane (i : fin 4) (v : ptr) (pic : x264_picture_t) : x264_picture_t :=
  mk_picture (i_type pic) (i_pts pic)
             (mk_image (img_i_csp (img pic)) (i_plane (img pic))
                       (i_stride (img pic)) (vinsert i v (plane (img pic))))
             (pic_other pic).
Definition set_i_type (v : x264_frame_type) (pic : x264_picture_t) : x264_picture_t :=
  mk_picture v (i_pts pic) (img pic) (pic_other pic).

Definition set_h (v : ptr) (e : Encoder) : Encoder :=
  mk_Encoder v (pic_in e) (param e) (force_key_frame e).
Definition set_pic_in (v : x264_picture_t) (e : Encoder) : Encoder :=
  mk_Encoder (h e) v (param e) (force_key_frame e).
Definition set_param (v : x264_param_t) (e : Encoder) : Encoder :=
  mk_Encoder (h e) (pic_in e) v (force_key_frame e).
Definition set_force_key_frame (v : Z) (e : Encoder) : Encoder :=
  mk_Encoder (h e) (pic_in e) (param e) v.

(* ===================================================================== *)
(** ** The engine *)
(* ===================================================================== *)

(** What [x264_encoder_encode] hands back: its return value and the NAL
    array it stores through [pp_nal].  ([pi_nal] and [pic_out] are written
    too, but the bridge never reads them.) *)
Record encode_out : Type := mk_encode_out {
  frame_size : Z;
  nal : list x264_nal_t
}.

(** The entry points of x264.h the bridge calls, over the engine's own
    state [X].  [x264_param_default_preset] and [x264_param_apply_profile]
    write the parameter structure they are given; the session entry points
    take a handle and read the structures passed to them. *)
Record engine (X : Type) : Type := mk_engine {
  x264_param_default_preset :
    x264_param_t -> string -> string -> Z * x264_param_t;
  x264_param_apply_profile :
    x264_param_t -> string -> Z * x264_param_t;
  x264_picture_alloc : X -> Z -> Z -> Z -> Z * x264_picture_t;
  x264_encoder_open : X -> x264_param_t -> ptr * X;
  x264_encoder_reconfig : X -> ptr -> x264_param_t -> Z * X;
  x264_encoder_encode : X -> ptr -> x264_picture_t -> encode_out * X;
  x264_encoder_close : X -> ptr -> X
}.
Arguments x264_param_default_preset {X}.
Arguments x264_param_apply_profile {X}.
Arguments x264_picture_alloc {X}.
Arguments x264_encoder_open {X}.
Arguments x264_encoder_reconfig {X}.
Arguments x264_encoder_encode {X}.
Arguments x264_encoder_close {X}.

(** Calls into the engine, in the order the bridge makes them. *)
Inductive call : Type :=
| Call_param_default_preset (preset tune : string)
| Call_param_apply_profile (p : x264_param_t) (profile : string)
| Call_picture_alloc (csp width height : Z)
| Call_picture_clean (storage : ptr)
| Call_encoder_open (p : x264_param_t)
| Call_encoder_reconfig (handle : ptr) (p : x264_param_t)
| Call_encoder_encode (handle : ptr) (pic : x264_picture_t)
| Call_encoder_close (handle : ptr).

(* ===================================================================== *)
(** ** The bridge *)
(* ===================================================================== *)

Section Bridge.

Context {X : Type} (E : engine X).

(** The state the bridge runs in: the heap blocks that are allocated, the
    engine's own state, and the log of engine calls (oldest first). *)
Record world : Type := mk_world {
  live : gset loc;
  x264 : X;
  calls : list call
}.

(** Stateful code is written in the state monad over [world]. *)
Definition M (A : Type) : Type := world -> A * world.

Definition ret {A : Type} (a : A) : M A := fun w => (a, w).
Definition bind {A B : Type} (m : M A) (k : A -> M B) : M B :=
  fun w => let (a, w') := m w in k a w'.

#[local] Instance M_ret : MRet M := @ret.
#[local] Instance M_bind : MBind M := fun A B k m => bind m k.

Definition log (c : call) : M unit :=
  fun w => (tt, mk_world (live w) (x264 w) (calls w ++ [c])).

(** [malloc]: a block that is not live becomes live.  (The bridge never
    tests the result, and neither does this model: allocation succeeds.)
    The contents of the block are whatever was there before; the caller of
    [enc_new] below supplies them. *)
Definition malloc : M loc :=
  fun w => let l := fresh (live w) in
           (l, mk_world ({[ l ]} ∪ live w) (x264 w) (calls w)).

(** [free]: the block is live no more. *)
Definition free (l : loc) : M unit :=
  fun w => (tt, mk_world (live w ∖ {[ l ]}) (x264 w) (calls w)).

Definition free_ptr (p : ptr) : M unit :=
  match p with
  | Some l => free l
  | None => ret tt
  end.

(** A step of the engine on its own state. *)
Definition engine_step {A : Type} (f : X -> A * X) : M A :=
  fun w => let (a, x') := f (x264 w) in
           (a, mk_world (live w) x' (calls w)).

(** A query that leaves the engine's state as it is. *)
Definition engine_query {A : Type} (f : X -> A) : M A :=
  engine_step (fun x => (f x, x)).

(** *** Engine entry points, as the bridge sees them *)

Definition param_default_preset (p : x264_param_t) (preset tune : string)
  : M (Z * x264_param_t) :=
  log (Call_param_default_preset preset tune);;
  ret (x264_param_default_preset E p preset tune).

Definition param_apply_profile (p : x264_param_t) (profile : string)
  : M (Z * x264_param_t) :=
  log (Call_param_apply_profile p profile);;
  ret (x264_param_apply_profile E p profile).

(** [x264_picture_alloc] fills the picture it is given and, when it succeeds
    (a result that is not negative), allocates the plane storage in one
    block, to which [img.plane[0]] points. *)
Definition picture_alloc (csp width height : Z) : M (Z * x264_picture_t) :=
  log (Call_picture_alloc csp width height);;
  '(r, pic) ← engine_query (fun x => x264_picture_alloc E x csp width height);
  if r <? 0 then ret (r, pic)
  else
    l ← malloc;
    ret (r, set_plane 0%fin (Some l) pic).

(** [x264_picture_clean] releases the storage behind [img.plane[0]]. *)
Definition picture_clean (pic : x264_picture_t) : M unit :=
  log (Call_picture_clean (plane (img pic) !!! 0%fin));;
  free_ptr (plane (img pic) !!! 0%fin).

Definition encoder_open (p : x264_param_t) : M ptr :=
  log (Call_encoder_open p);;
  engine_step (fun x => x264_encoder_open E x p).

Definition encoder_reconfig (hd : ptr) (p : x264_param_t) : M Z :=
  log (Call_encoder_reconfig hd p);;
  engine_step (fun x => x264_encoder_reconfig E x hd p).

Definition encoder_encode (hd : ptr) (pic : x264_picture_t) : M encode_out :=
  log (Call_encoder_encode hd pic);;
  engine_step (fun x => x264_encoder_encode E x hd pic).

Definition encoder_close (hd : ptr) : M unit :=
  log (Call_encoder_close hd);;
  engine_step (fun x => (tt, x264_encoder_close E x hd)).

(** *** [enc_new] (lines 25-80) *)

(** A store through the [int *rc] argument: the value stored, if any. *)
Definition rc_store : Type := option Z.

(** What the caller reads from its variable after the call. *)
Definition rc_after (before : Z) (s : rc_store) : Z :=
  match s with
  | Some v => v
  | None => before
  end.

(** Lines 36-50, "Configure non-default params": [ep] is [e->param] and
    [p] the [param] argument. *)
Definition configure (ep p : x264_param_t) : x264_param_t :=
  let ep := set_i_csp (i_csp p) ep in
  let ep := set_i_width (i_width p) ep in
  let ep := set_i_height (i_height p) ep in
  let ep := set_i_fps_num (i_fps_num p) ep in
  let ep := set_i_fps_den 1 ep in
  let ep := set_i_keyint_max (i_keyint_max p) ep in
  let ep := set_rc (set_i_rc_method X264_RC_ABR) ep in
  let ep := set_rc (set_i_bitrate (i_bitrate (rc p))) ep in
  let ep := set_rc (set_i_vbv_max_bitrate (i_vbv_max_bitrate (rc p))) ep in
  let ep := set_rc (set_i_vbv_buffer_size (i_vbv_buffer_size (rc p))) ep in
  let ep := set_b_repeat_headers 1 ep in
  let ep := set_b_annexb 1 ep in
  ep.

(** The [fail:] label (lines 77-79), reached after [*rc = code]. *)
Definition fail (e : loc) (code : Z) : M (option (loc * Encoder) * rc_store) :=
  free e;;
  ret (None, Some code).

(** [uninit] is the content of the block [malloc] returns, before the
    bridge writes anything to it.  The result is the returned pointer, with
    the structure it points to, and the store through [rc]. *)
Definition enc_new (uninit : Encoder) (p : x264_param_t) (preset : cstring)
  : M (option (loc * Encoder) * rc_store) :=
  e_addr ← malloc;
  let e := uninit in
  '(r, ep) ← param_default_preset (param e) (chars preset) "zerolatency";
  let e := set_param ep e in
  if r <? 0 then
    free (addr preset);;
    fail e_addr ERR_DEFAULT_PRESET
  else
    free (addr preset);;
    let e := set_param (configure (param e) p) e in
    '(r, ep) ← param_apply_profile (param e) "high";
    let e := set_param ep e in
    if r <? 0 then
      fail e_addr ERR_APPLY_PROFILE
    else
      '(r, pic) ← picture_alloc (i_csp p) (i_width p) (i_height p);
      if r <? 0 then
        fail e_addr ERR_ALLOC_PICTURE
      else
        let e := set_pic_in pic e in
        picture_clean pic;;
        hd ← encoder_open (param e);
        let e := set_h hd e in
        match h e with
        | None => fail e_addr ERR_OPEN_ENGINE
        | Some _ => ret (Some (e_addr, e), None)
        end.

(** *** [apply_target_bitrate] (lines 82-96) *)

Definition apply_target_bitrate (e : Encoder) (target_bitrate : Z)
  : M (Z * Encoder) :=
  let target_encoder_bitrate := target_bitrate ÷ 1000 in
  if (i_bitrate (rc (param e)) =? target_encoder_bitrate)
     || (target_encoder_bitrate <=? 1)
  then ret (0, e)
  else
    let e := set_param (set_rc (set_i_bitrate target_encoder_bitrate) (param e)) e in
    let e := set_param (set_rc (set_f_rate_tolerance 0.1%Q) (param e)) e in
    let e := set_param
               (set_rc (set_i_vbv_max_bitrate
                          (target_encoder_bitrate + RC_MARGIN ÷ 2)) (param e)) e in
    let e := set_param
               (set_rc (set_i_vbv_buffer_size
                          (i_vbv_max_bitrate (rc (param e)))) (param e)) e in
    let e := set_param (set_rc (set_f_vbv_buffer_init 0.6%Q) (param e)) e in
    success ← encoder_reconfig (h e) (param e);
    ret (success, e).

(** *** [enc_encode] (lines 98-123) *)

(** [nal->p_payload]: the payload pointer of the first element of the
    array the engine returned.  (x264 returns a positive size only together
    with at least one NAL; were the array empty, the C code would read
    whatever [nal] points to, which is rendered here as [NULL].) *)
Definition first_payload (nals : list x264_nal_t) : ptr :=
  match nals with
  | n :: _ => p_payload n
  | [] => NULL
  end.

Definition enc_encode (e : Encoder) (y cb cr : ptr)
  : M (Slice * Encoder * rc_store) :=
  let e := set_pic_in (set_plane 0%fin y (pic_in e)) e in
  let e := set_pic_in (set_plane 1%fin cb (pic_in e)) e in
  let e := set_pic_in (set_plane 2%fin cr (pic_in e)) e in
  let e :=
    if truthy (force_key_frame e)
    then set_pic_in (set_i_type X264_TYPE_IDR (pic_in e)) e
    else set_pic_in (set_i_type X264_TYPE_AUTO (pic_in e)) e in
  o ← encoder_encode (h e) (pic_in e);
  let e := set_force_key_frame 0 e in
  let s := mk_Slice NULL (frame_size o) in
  if frame_size o <=? 0 then
    ret (s, e, Some ERR_ENCODE)
  else
    let s := mk_Slice (first_payload (nal o)) (data_len s) in
    ret (s, e, None).

(** *** [enc_close] (lines 125-128) *)

Definition enc_close (e_addr : loc) (e : Encoder) : M rc_store :=
  encoder_close (h e);;
  free e_addr;;
  ret None.

End Bridge.

Arguments world X : clear implicits.
Arguments mk_world {X}.
Arguments live {X}.
Arguments x264 {X}.
Arguments calls {X}.

(* ===================================================================== *)
(** ** Vocabulary of the statements *)
(* ===================================================================== *)

(** The test of line 85. *)
Definition is_noop (e : Encoder) (target_bitrate : Z) : bool :=
  (i_bitrate (rc (param e)) =? target_bitrate ÷ 1000)
  || (target_bitrate ÷ 1000 <=? 1).

(** The rate-control block after lines 89-93, for a converted bitrate [k]. *)
Definition retargeted_rc (k : Z) (r : x264_rc_t) : x264_rc_t :=
  mk_rc (i_rc_method r) k 0.1%Q (k + RC_MARGIN ÷ 2) (k + RC_MARGIN ÷ 2)
        0.6%Q (rc_other r).

Definition retargeted (k : Z) (e : Encoder) : Encoder :=
  set_param (set_rc (retargeted_rc k) (param e)) e.

(** The force-key-frame flag of a session is set when it is not zero. *)
Definition flag_set (e : Encoder) : bool := truthy (force_key_frame e).

(** Every field of [x264_param_t] outside the five that a bitrate change
    writes ([i_bitrate], [f_rate_tolerance], [i_vbv_max_bitrate],
    [i_vbv_buffer_size], [f_vbv_buffer_init]). *)
Definition outside_rate_control (p : x264_param_t)
  : Z * Z * Z * Z * Z * Z * Z * Z * list Z * x264_rc_method * list Z :=
  (i_csp p, i_width p, i_height p, i_fps_num p, i_fps_den p, i_keyint_max p,
   b_repeat_headers p, b_annexb p, param_other p,
   i_rc_method (rc p), rc_other (rc p)).

(** The fields lines 36-50 write, as the profile step may or may not
    leave them. *)
Definition overrides (p : x264_param_t)
  : Z * Z * Z * Z * Z * Z * x264_rc_method * Z * Z * Z * Z * Z :=
  (i_csp p, i_width p, i_height p, i_fps_num p, i_fps_den p, i_keyint_max p,
   i_rc_method (rc p), i_bitrate (rc p), i_vbv_max_bitrate (rc p),
   i_vbv_buffer_size (rc p), b_repeat_headers p, b_annexb p).

(** [cfg] carries the caller's parameters [p]: the fields copied by lines
    36-47 are those of [p], the frame-rate denominator is 1, rate control
    is ABR, and the two streaming flags are 1. *)
Definition carries (p cfg : x264_param_t) : Prop :=
  i_csp cfg = i_csp p
  /\ i_width cfg = i_width p
  /\ i_height cfg = i_height p
  /\ i_fps_num cfg = i_fps_num p
  /\ i_fps_den cfg = 1
  /\ i_keyint_max cfg = i_keyint_max p
  /\ i_rc_method (rc cfg) = X264_RC_ABR
  /\ i_bitrate (rc cfg) = i_bitrate (rc p)
  /\ i_vbv_max_bitrate (rc cfg) = i_vbv_max_bitrate (rc p)
  /\ i_vbv_buffer_size (rc cfg) = i_vbv_buffer_size (rc p)
  /\ b_repeat_headers cfg = 1
  /\ b_annexb cfg = 1.

(** A call that opens the engine does so with a configuration that
    carries [p]. *)
Definition opens_with (p : x264_param_t) (c : call) : Prop :=
  match c with
  | Call_encoder_open cfg => carries p cfg
  | _ => True
  end.

(** An engine whose profile step, when it accepts a configuration, leaves
    the overridden fields as they are (x264 does, for the high profile: it
    only checks the configuration against the profile). *)
Definition profile_keeps_overrides {X : Type} (E : engine X) : Prop :=
  forall (p p' : x264_param_t) (r : Z),
    x264_param_apply_profile E p "high" = (r, p') ->
    0 <= r ->
    overrides p' = overrides p.

(* ===================================================================== *)
(** ** A scripted engine *)
(* ===================================================================== *)

(** A stand-in for x264 whose answers are fixed in advance, used to run the
    bridge on concrete inputs. *)
Module Fake.

Record script : Type := mk_script {
  alloc_ok : bool;           (* does x264_picture_alloc succeed? *)
  open_ok : bool;            (* does x264_encoder_open succeed? *)
  reconfig_result : Z;       (* what x264_encoder_reconfig returns *)
  frames : list encode_out   (* what successive encode calls return *)
}.

Definition presets : list string :=
  ["ultrafast"; "superfast"; "veryfast"; "faster"; "fast"; "medium";
   "slow"; "slower"; "veryslow"; "placebo"]%string.

Definition defaults : x264_param_t :=
  mk_param 2 0 0 25 1 250
           (mk_rc X264_RC_CRF 0 1%Q 0 0 0.9%Q [])
           1 1 [].

Definition blank_picture : x264_picture_t :=
  mk_picture X264_TYPE_AUTO 0
             (mk_image 0 0 [# 0; 0; 0; 0] [# NULL; NULL; NULL; NULL]) [].

Definition picture_of (csp width height : Z) : x264_picture_t :=
  mk_picture X264_TYPE_AUTO 0
             (mk_image csp 3 [# width; width ÷ 2; width ÷ 2; 0]
                       [# NULL; NULL; NULL; NULL]) [].

Definition scripted : engine script :=
  mk_engine script
    (fun _ preset _ =>
       if bool_decide (preset ∈ presets) then (0, defaults) else (-1, defaults))
    (fun p _ => if 6 <=? i_csp p then (-1, p) else (0, p))
    (fun x csp width height =>
       if alloc_ok x then (0, picture_of csp width height)
       else (-1, blank_picture))
    (fun x _ => if open_ok x then (Some 1000%positive, x) else (NULL, x))
    (fun x _ _ => (reconfig_result x, x))
    (fun x _ _ =>
       match frames x with
       | o :: rest =>
           (o, mk_script (alloc_ok x) (open_ok x) (reconfig_result x) rest)
       | [] => (mk_encode_out (-1) [], x)
       end)
    (fun x _ => x).

(** Memory as [malloc] may hand it out: a recycled block, every word of
    which holds whatever was stored there last. *)
Definition recycled_block : Encoder :=
  mk_Encoder (Some 99%positive) blank_picture defaults 1.

(** A zeroed block. *)
Definition zero_block : Encoder :=
  mk_Encoder NULL blank_picture
    (mk_param 0 0 0 0 0 0 (mk_rc X264_RC_CQP 0 0%Q 0 0 0%Q []) 0 0 []) 0.

(** 1280x720 at 30 frames per second, key-frame interval 60, I420,
    2000 kbit/s with a VBV of 2500 kbit/s. *)
Definition hd_params : x264_param_t :=
  mk_param 2 1280 720 30 0 60
           (mk_rc X264_RC_CQP 2000 0%Q 2500 2500 0%Q [])
           0 0 [].

Definition veryfast : cstring := mk_cstring 5%positive "veryfast".

Definition start (s : script) : world script :=
  mk_world {[ 5%positive ]} s [].

Definition good : script := mk_script true true 0 [].

(** An engine that answers every reconfiguration with -1. *)
Definition rejecting : script := mk_script true true (-1) [].

(** An engine whose first encode call returns 42 bytes in two NALs, the
    first with its payload at block 500. *)
Definition two_nals : script :=
  mk_script true true 0
    [mk_encode_out 42 [mk_nal 30 (Some 500%positive);
                       mk_nal 12 (Some 530%positive)]].

(** A session as [enc_new] leaves it on [hd_params], flag cleared. *)
Definition session : Encoder :=
  mk_Encoder (Some 1000%positive) (picture_of 2 1280 720)
             (configure defaults hd_params) 0.

(** What [enc_new] returns on [hd_params] when the block it was given is
    [recycled_block]: the picture still points to the released storage, and
    the flag is the word found in the block. *)
Definition opened : Encoder :=
  mk_Encoder (Some 1000%positive)
             (set_plane 0%fin (Some 7%positive) (picture_of 2 1280 720))
             (configure defaults hd_params) 1.

End Fake.

(* ===================================================================== *)
(** ** Properties *)
(* ===================================================================== *)

(** Unfolds one run of the bridge into its steps. *)
Ltac run :=
  cbv beta delta
    [enc_new enc_encode enc_close apply_target_bitrate fail
     param_default_preset param_apply_profile picture_alloc picture_clean
     encoder_open encoder_reconfig encoder_encode encoder_close
     engine_step engine_query log malloc free free_ptr
     mbind mret M_bind M_ret bind ret];
  cbn beta iota zeta.

(** Membership in a list that is written out. *)
Ltac one_of_codes := repeat first [apply list_elem_of_here | apply list_elem_of_further].

(** *** Arithmetic of the bitrate conversion *)

Lemma RC_MARGIN_half : RC_MARGIN ÷ 2 = 5000.
Proof. reflexivity. Qed.

(** An [int] divided by 1000 and raised by half the margin is an [int]:
    line 91 cannot overflow, and unbounded integers compute what C does. *)
Lemma vbv_max_in_range (target_bitrate : Z) :
  int_range target_bitrate ->
  int_range (target_bitrate ÷ 1000) /\
  int_range (target_bitrate ÷ 1000 + RC_MARGIN ÷ 2).
Proof.
  unfold int_range, INT_MIN, INT_MAX. intros [Hlo Hhi].
  rewrite RC_MARGIN_half.
  assert (Hq : -2147484 < target_bitrate ÷ 1000 < 2147484).
  { destruct (Z_le_gt_dec 0 target_bitrate) as [Hpos | Hneg].
    - rewrite Z.quot_div_nonneg by lia.
      split.
      + pose proof (Z.div_pos target_bitrate 1000). lia.
      + apply Z.div_lt_upper_bound; lia.
    - replace target_bitrate with (- (- target_bitrate)) by lia.
      rewrite Z.quot_opp_l by lia.
      rewrite Z.quot_div_nonneg by lia.
      split.
      + assert (- target_bitrate / 1000 < 2147484)
          by (apply Z.div_lt_upper_bound; lia).
        lia.
      + pose proof (Z.div_pos (- target_bitrate) 1000). lia. }
  lia.
Qed.

Section Properties.

Context {X : Type} (E : engine X).

(** *** Bitrate changes *)

Lemma is_noop_spec (e : Encoder) (target_bitrate : Z) :
  is_noop e target_bitrate = true <->
  i_bitrate (rc (param e)) = target_bitrate ÷ 1000 \/ target_bitrate ÷ 1000 <= 1.
Proof.
  unfold is_noop. rewrite orb_true_iff, Z.eqb_eq, Z.leb_le. reflexivity.
Qed.

Lemma is_noop_false (e : Encoder) (target_bitrate : Z) :
  is_noop e target_bitrate = false <->
  i_bitrate (rc (param e)) <> target_bitrate ÷ 1000 /\ 1 < target_bitrate ÷ 1000.
Proof.
  unfold is_noop. rewrite orb_false_iff, Z.eqb_neq, Z.leb_gt. reflexivity.
Qed.

(** The no-op branch: nothing happens. *)
Lemma apply_target_bitrate_skip (e : Encoder) (target_bitrate : Z) (w : world X) :
  is_noop e target_bitrate = true ->
  apply_target_bitrate E e target_bitrate w = (0, e, w).
Proof.
  unfold is_noop. intros Hn. run. rewrite Hn. reflexivity.
Qed.

(** The other branch: the five fields are written, then the engine is
    called once, with the handle and the updated parameters, and its answer
    is returned as it is. *)
Lemma apply_target_bitrate_push (e : Encoder) (target_bitrate : Z) (w : world X) :
  is_noop e target_bitrate = false ->
  let k := target_bitrate ÷ 1000 in
  let e' := retargeted k e in
  let c := Call_encoder_reconfig (h e) (param e') in
  let '(r, x') := x264_encoder_reconfig E (x264 w) (h e) (param e') in
  apply_target_bitrate E e target_bitrate w
  = (r, e', mk_world (live w) x' (calls w ++ [c])).
Proof.
  unfold is_noop. intros Hn. run. rewrite Hn. cbn.
  destruct e as [hd pic [? ? ? ? ? ? [? ? ? ? ? ? ?] ? ? ?] fk]; cbn.
  destruct (x264_encoder_reconfig E _ _ _) as [r x']. reflexivity.
Qed.

(** C2. A request whose value, divided by 1000, equals the configured
    bitrate or is at most 1 returns 0 and leaves the session and the world
    as they were: no field is written and the engine is not called (its
    state and the call log are the same).  A request of 0 bits per second
    is such a request, whatever the session. *)
Theorem apply_target_bitrate_noop
  (e : Encoder) (target_bitrate : Z) (w : world X) :
  i_bitrate (rc (param e)) = target_bitrate ÷ 1000
  \/ target_bitrate ÷ 1000 <= 1 ->
  apply_target_bitrate E e target_bitrate w = (0, e, w)
  /\ apply_target_bitrate E e 0 w = (0, e, w).
Proof.
  intros Hn. split.
  - apply apply_target_bitrate_skip, is_noop_spec, Hn.
  - apply apply_target_bitrate_skip, is_noop_spec. right. change (0 ÷ 1000) with 0. lia.
Qed.

(** C6. When the request is not a no-op and the engine answers the
    reconfiguration with a negative value, the operation returns that
    negative value, and the session holds the attempted values: the new
    bitrate (which differs from the one before the call), tolerance 0.1,
    VBV maximum and buffer at the new bitrate plus half of RC_MARGIN, and
    initial fullness 0.6.  Nothing is restored. *)
Theorem apply_target_bitrate_rejected
  (e : Encoder) (target_bitrate : Z) (w : world X) :
  let k := target_bitrate ÷ 1000 in
  let out := apply_target_bitrate E e target_bitrate w in
  let e' := out.1.2 in
  let answer := (x264_encoder_reconfig E (x264 w) (h e) (param e')).1 in
  i_bitrate (rc (param e)) <> k ->
  1 < k ->
  answer < 0 ->
  out.1.1 = answer
  /\ out.1.1 < 0
  /\ i_bitrate (rc (param e')) = k
  /\ i_bitrate (rc (param e')) <> i_bitrate (rc (param e))
  /\ f_rate_tolerance (rc (param e')) = 0.1%Q
  /\ i_vbv_max_bitrate (rc (param e')) = k + RC_MARGIN ÷ 2
  /\ i_vbv_buffer_size (rc (param e')) = k + RC_MARGIN ÷ 2
  /\ f_vbv_buffer_init (rc (param e')) = 0.6%Q.
Proof.
  intros k out e' answer Hne Hk.
  assert (Hn : is_noop e target_bitrate = false) by (apply is_noop_false; done).
  pose proof (apply_target_bitrate_push e target_bitrate w Hn) as Hrun.
  cbv zeta in Hrun. subst answer e' out.
  destruct (x264_encoder_reconfig E (x264 w) (h e)
              (param (retargeted (target_bitrate ÷ 1000) e))) as [r x'] eqn:Her.
  rewrite Hrun. cbn [fst snd]. rewrite Her. cbn.
  intros Hneg. subst k. repeat split; done.
Qed.

(** C10. A bitrate change, whatever its outcome, leaves the engine
    handle, the input picture, the force-key-frame flag and every
    parameter field other than the five it writes as they were. *)
Theorem apply_target_bitrate_frame
  (e : Encoder) (target_bitrate : Z) (w : world X) :
  let e' := (apply_target_bitrate E e target_bitrate w).1.2 in
  h e' = h e
  /\ pic_in e' = pic_in e
  /\ force_key_frame e' = force_key_frame e
  /\ outside_rate_control (param e') = outside_rate_control (param e).
Proof.
  destruct (is_noop e target_bitrate) eqn:Hn.
  - rewrite (apply_target_bitrate_skip e target_bitrate w Hn). done.
  - pose proof (apply_target_bitrate_push e target_bitrate w Hn) as Hrun.
    cbv zeta in Hrun.
    destruct (x264_encoder_reconfig E _ _ _) as [r x'].
    rewrite Hrun. done.
Qed.

(** *** Encoding a frame *)

(** Lines 103-105 bind the three planes; the fourth is left alone. *)
Lemma planes_bound (pic : x264_picture_t) (y cb cr : ptr) :
  let b := set_plane 2%fin cr (set_plane 1%fin cb (set_plane 0%fin y pic)) in
  plane (img b) !!! 0%fin = y
  /\ plane (img b) !!! 1%fin = cb
  /\ plane (img b) !!! 2%fin = cr
  /\ plane (img b) !!! 3%fin = plane (img pic) !!! 3%fin.
Proof.
  destruct pic as [t pts [csp np st pl] o]. cbn.
  inv_vec pl. intros p0 p1 p2 p3. cbn. done.
Qed.

(** One run of [enc_encode]: the planes are bound and the type chosen, the
    engine is called once on the handle and that picture, and the outcome
    follows the sign of the size the engine returned. *)
Lemma enc_encode_run (e : Encoder) (y cb cr : ptr) (w : world X) :
  exists pic : x264_picture_t,
    i_type pic = (if flag_set e then X264_TYPE_IDR else X264_TYPE_AUTO)
    /\ plane (img pic) !!! 0%fin = y
    /\ plane (img pic) !!! 1%fin = cb
    /\ plane (img pic) !!! 2%fin = cr
    /\ let o := (x264_encoder_encode E (x264 w) (h e) pic).1 in
       let x' := (x264_encoder_encode E (x264 w) (h e) pic).2 in
       enc_encode E e y cb cr w
       = (mk_Slice (if frame_size o <=? 0 then NULL else first_payload (nal o))
                   (frame_size o),
          mk_Encoder (h e) pic (param e) 0,
          (if frame_size o <=? 0 then Some ERR_ENCODE else None),
          mk_world (live w) x' (calls w ++ [Call_encoder_encode (h e) pic])).
Proof.
  destruct e as [hd pic ep fk].
  set (bound := set_plane 2%fin cr (set_plane 1%fin cb (set_plane 0%fin y pic))).
  exists (set_i_type (if truthy fk then X264_TYPE_IDR else X264_TYPE_AUTO)
                     bound).
  split; [unfold flag_set; cbn; by destruct (truthy fk) |].
  destruct (planes_bound pic y cb cr) as (H0 & H1 & H2 & _).
  do 3 (split; [assumption |]).
  cbv zeta. run. cbn [h pic_in param force_key_frame set_pic_in set_force_key_frame
                      fst snd live x264 calls data_len].
  fold bound.
  destruct (truthy fk); cbn [h pic_in param force_key_frame set_pic_in
                             set_force_key_frame];
    destruct (x264_encoder_encode E (x264 w) hd _) as [o x'];
    cbn [fst snd frame_size nal];
    destruct (frame_size o <=? 0); reflexivity.
Qed.

(** C1. Every encode call makes one call to the engine's encode entry
    point, and the picture it submits has type IDR when the session's
    force-key-frame flag was set and AUTO when it was not; after the call
    the flag is 0, whatever size the engine returned. *)
Theorem enc_encode_key_frame (e : Encoder) (y cb cr : ptr) (w : world X) :
  let out := enc_encode E e y cb cr w in
  (exists pic : x264_picture_t,
      calls out.2 = calls w ++ [Call_encoder_encode (h e) pic]
      /\ i_type pic = if flag_set e then X264_TYPE_IDR else X264_TYPE_AUTO)
  /\ force_key_frame out.1.1.2 = 0
  /\ flag_set out.1.1.2 = false.
Proof.
  destruct (enc_encode_run e y cb cr w) as (pic & Hty & _ & _ & _ & Hrun).
  cbv zeta in *. rewrite Hrun. cbn. split; [| done].
  exists pic. done.
Qed.

(** C5. An encode call stores ERR_ENCODE through [rc] exactly when the
    size the engine returned is zero or less.  The length of the returned
    slice is always that size: not positive on failure, and on success the
    total size, with the data pointer set to the payload of the first NAL
    of the array the engine returned: whenever that array is [n :: rest],
    the data pointer is [p_payload n]. *)
Theorem enc_encode_outcome (e : Encoder) (y cb cr : ptr) (w : world X) :
  let out := enc_encode E e y cb cr w in
  let s := out.1.1.1 in
  let stored := out.1.2 in
  exists pic : x264_picture_t,
    calls out.2 = calls w ++ [Call_encoder_encode (h e) pic]
    /\ let o := (x264_encoder_encode E (x264 w) (h e) pic).1 in
       (stored = Some ERR_ENCODE <-> frame_size o <= 0)
       /\ data_len s = frame_size o
       /\ (stored = Some ERR_ENCODE <-> data_len s <= 0)
       /\ (if frame_size o <=? 0
           then stored = Some ERR_ENCODE /\ data_len s <= 0
           else stored = None /\ 0 < data_len s
                /\ data s = first_payload (nal o)
                /\ (forall (n : x264_nal_t) (rest : list x264_nal_t),
                       nal o = n :: rest -> data s = p_payload n)).
Proof.
  destruct (enc_encode_run e y cb cr w) as (pic & _ & _ & _ & _ & Hrun).
  cbv zeta in *. rewrite Hrun. cbn. exists pic. split; [done |].
  destruct (Z.leb_spec (frame_size (x264_encoder_encode E (x264 w) (h e) pic).1) 0)
    as [Hle | Hgt].
  - repeat split; done.
  - repeat split; try done; try lia.
    intros n rest Hnal. rewrite Hnal. reflexivity.
Qed.

(** [nal->p_payload] is the payload of the first element. *)
Lemma first_payload_cons (n : x264_nal_t) (rest : list x264_nal_t) :
  first_payload (n :: rest) = p_payload n.
Proof. reflexivity. Qed.

(** *** Opening a session *)

(** One run of [enc_new], step by step: what is returned and stored
    through [rc] is decided by the four answers of the engine, in order. *)
Lemma enc_new_run (uninit : Encoder) (p : x264_param_t) (preset : cstring)
  (w : world X) :
  let pre := x264_param_default_preset E (param uninit) (chars preset)
               "zerolatency" in
  let pro := x264_param_apply_profile E (configure pre.2 p) "high" in
  let alc := x264_picture_alloc E (x264 w) (i_csp p) (i_width p) (i_height p) in
  let opn := x264_encoder_open E (x264 w) pro.2 in
  let e_addr := fresh (live w) in
  let storage := fresh (({[ e_addr ]} ∪ live w) ∖ {[ addr preset ]}) in
  (enc_new E uninit p preset w).1
  = if pre.1 <? 0 then (None, Some ERR_DEFAULT_PRESET)
    else if pro.1 <? 0 then (None, Some ERR_APPLY_PROFILE)
    else if alc.1 <? 0 then (None, Some ERR_ALLOC_PICTURE)
    else match opn.1 with
         | None => (None, Some ERR_OPEN_ENGINE)
         | Some hd =>
             (Some (e_addr,
                    mk_Encoder (Some hd)
                               (set_plane 0%fin (Some storage) alc.2)
                               pro.2 (force_key_frame uninit)),
              None)
         end.
Proof.
  cbv zeta. run. cbn.
  destruct (x264_param_default_preset E _ _ _) as [r1 ep1]. cbn.
  destruct (r1 <? 0); [reflexivity |]. cbn.
  destruct (x264_param_apply_profile E _ _) as [r2 ep2]. cbn.
  destruct (r2 <? 0); [reflexivity |]. cbn.
  destruct (x264_picture_alloc E _ _ _ _) as [r3 pic]. cbn.
  destruct (r3 <? 0) eqn:H3; cbn; rewrite ?H3; cbn; [reflexivity |].
  destruct pic as [t pts [csp np st pl] o]. inv_vec pl. intros p0 p1 p2 p3.
  cbn.
  destruct (x264_encoder_open E _ _) as [[hd |] x']; reflexivity.
Qed.

(** Releasing a block that was just allocated restores the heap. *)
Lemma free_fresh (L : gset loc) (l : loc) :
  l ∉ L -> ({[ l ]} ∪ L) ∖ {[ l ]} = L.
Proof. intros Hl. apply set_eq. intros x. set_unfold. intuition congruence. Qed.

Lemma free_session_after_preset (L : gset loc) (l q : loc) :
  l ∉ L -> (({[ l ]} ∪ L) ∖ {[ q ]}) ∖ {[ l ]} = L ∖ {[ q ]}.
Proof. intros Hl. apply set_eq. intros x. set_unfold. intuition congruence. Qed.

(** The heap after [enc_new]: the preset string is gone in every case, and
    the only block added is the one behind the returned pointer. *)
Lemma enc_new_live (uninit : Encoder) (p : x264_param_t) (preset : cstring)
  (w : world X) :
  let out := enc_new E uninit p preset w in
  live out.2
  = match out.1.1 with
    | None => live w ∖ {[ addr preset ]}
    | Some (l, _) => ({[ l ]} ∪ live w) ∖ {[ addr preset ]}
    end.
Proof.
  cbv zeta. run. cbn.
  pose proof (is_fresh (live w)) as Hfresh.
  set (e_addr := fresh (live w)) in *.
  pose proof (is_fresh (({[ e_addr ]} ∪ live w) ∖ {[ addr preset ]})) as Hfresh'.
  set (storage := fresh (({[ e_addr ]} ∪ live w) ∖ {[ addr preset ]})) in *.
  destruct (x264_param_default_preset E _ _ _) as [r1 ep1]. cbn.
  destruct (r1 <? 0); cbn; [by apply free_session_after_preset |].
  destruct (x264_param_apply_profile E _ _) as [r2 ep2]. cbn.
  destruct (r2 <? 0); cbn; [by apply free_session_after_preset |].
  destruct (x264_picture_alloc E _ _ _ _) as [r3 pic]. cbn.
  destruct (r3 <? 0) eqn:H3; cbn; rewrite ?H3; cbn;
    [by apply free_session_after_preset |].
  destruct pic as [t pts [csp np st pl] o]. inv_vec pl. intros p0 p1 p2 p3.
  cbn. fold e_addr. fold storage. rewrite (free_fresh _ storage Hfresh').
  destruct (x264_encoder_open E _ _) as [[hd |] x']; cbn;
    [reflexivity | by apply free_session_after_preset].
Qed.

(** What lines 36-50 leave in the overridden fields. *)
Lemma configure_overrides (ep p : x264_param_t) :
  overrides (configure ep p)
  = (i_csp p, i_width p, i_height p, i_fps_num p, 1, i_keyint_max p,
     X264_RC_ABR, i_bitrate (rc p), i_vbv_max_bitrate (rc p),
     i_vbv_buffer_size (rc p), 1, 1).
Proof. reflexivity. Qed.

(** Everything else in the structure is as the preset step left it. *)
Lemma configure_rest (ep p : x264_param_t) :
  param_other (configure ep p) = param_other ep
  /\ rc_other (rc (configure ep p)) = rc_other (rc ep)
  /\ f_rate_tolerance (rc (configure ep p)) = f_rate_tolerance (rc ep)
  /\ f_vbv_buffer_init (rc (configure ep p)) = f_vbv_buffer_init (rc ep).
Proof. done. Qed.

(** The session [enc_new] returns: its flag is the word that was in the
    block before, since no line of [enc_new] assigns [force_key_frame]. *)
Lemma enc_new_session (uninit : Encoder) (p : x264_param_t) (preset : cstring)
  (w : world X) (l : loc) (e : Encoder) :
  (enc_new E uninit p preset w).1.1 = Some (l, e) ->
  let pre := x264_param_default_preset E (param uninit) (chars preset)
               "zerolatency" in
  let pro := x264_param_apply_profile E (configure pre.2 p) "high" in
  l = fresh (live w)
  /\ 0 <= pre.1
  /\ 0 <= pro.1
  /\ param e = pro.2
  /\ is_Some (h e)
  /\ force_key_frame e = force_key_frame uninit
  /\ (enc_new E uninit p preset w).1.2 = None.
Proof.
  pose proof (enc_new_run uninit p preset w) as Hrun. cbv zeta in Hrun.
  rewrite Hrun. clear Hrun. cbv zeta.
  destruct (Z.ltb_spec
              (x264_param_default_preset E (param uninit) (chars preset)
                 "zerolatency").1 0) as [? | H1]; [done |].
  destruct (Z.ltb_spec
              (x264_param_apply_profile E
                 (configure
                    (x264_param_default_preset E (param uninit) (chars preset)
                       "zerolatency").2 p) "high").1 0) as [? | H2]; [done |].
  destruct (_ <? 0); [done |].
  destruct (x264_encoder_open E _ _).1 as [hd |]; [| done].
  cbn. intros [= <- <-]. cbn. eauto 10.
Qed.

(** The engine is opened at most once by [enc_new], after the profile
    step has accepted the configuration, and with the configuration that
    step left. *)
Lemma enc_new_calls (uninit : Encoder) (p : x264_param_t) (preset : cstring)
  (w : world X) :
  let pre := x264_param_default_preset E (param uninit) (chars preset)
               "zerolatency" in
  let pro := x264_param_apply_profile E (configure pre.2 p) "high" in
  exists new : list call,
    calls (enc_new E uninit p preset w).2 = calls w ++ new
    /\ forall cfg : x264_param_t,
         Call_encoder_open cfg ∈ new -> cfg = pro.2 /\ 0 <= pro.1.
Proof.
  cbv zeta. run. cbn.
  destruct (x264_param_default_preset E _ _ _) as [r1 ep1]. cbn.
  destruct (r1 <? 0); cbn.
  { eexists. split; [reflexivity |]. intros cfg Hin.
    apply list_elem_of_singleton in Hin. discriminate. }
  destruct (x264_param_apply_profile E _ _) as [r2 ep2]. cbn.
  destruct (Z.ltb_spec r2 0) as [| Hr2]; cbn.
  { rewrite <- !app_assoc. eexists. split; [reflexivity |]. intros cfg Hin.
    cbn in Hin. repeat (apply elem_of_cons in Hin as [[=] | Hin]).
    by apply elem_of_nil in Hin. }
  destruct (x264_picture_alloc E _ _ _ _) as [r3 pic]. cbn.
  destruct (r3 <? 0) eqn:H3; cbn; rewrite ?H3; cbn.
  { rewrite <- !app_assoc. eexists. split; [reflexivity |]. intros cfg Hin.
    cbn in Hin. repeat (apply elem_of_cons in Hin as [[=] | Hin]).
    by apply elem_of_nil in Hin. }
  destruct pic as [t pts [csp np st pl] o]. inv_vec pl. intros p0 p1 p2 p3.
  cbn.
  destruct (x264_encoder_open E _ _) as [[hd |] x']; cbn;
    rewrite <- !app_assoc; (eexists; split; [reflexivity |]); intros cfg Hin;
    cbn in Hin;
    repeat (apply elem_of_cons in Hin as [Heq | Hin];
            [try discriminate Heq |]);
    try (by apply elem_of_nil in Hin);
    injection Heq as ->; done.
Qed.

(** C7. Over an engine whose profile step leaves the overridden fields
    alone: every configuration with which [enc_new] opens the engine, and
    the configuration of every session it returns, has pixel format,
    width, height, frame-rate numerator, key-frame interval, bitrate, VBV
    maximum and VBV buffer size equal to the caller's, frame-rate
    denominator 1, rate control ABR, and both [b_repeat_headers] and
    [b_annexb] equal to 1. *)
Theorem enc_new_configuration
  (uninit : Encoder) (p : x264_param_t) (preset : cstring) (w : world X) :
  profile_keeps_overrides E ->
  let out := enc_new E uninit p preset w in
  (exists new : list call,
      calls out.2 = calls w ++ new /\ Forall (opens_with p) new)
  /\ (forall (l : loc) (e : Encoder),
        out.1.1 = Some (l, e) ->
        i_csp (param e) = i_csp p
        /\ i_width (param e) = i_width p
        /\ i_height (param e) = i_height p
        /\ i_fps_num (param e) = i_fps_num p
        /\ i_fps_den (param e) = 1
        /\ i_keyint_max (param e) = i_keyint_max p
        /\ i_rc_method (rc (param e)) = X264_RC_ABR
        /\ i_bitrate (rc (param e)) = i_bitrate (rc p)
        /\ i_vbv_max_bitrate (rc (param e)) = i_vbv_max_bitrate (rc p)
        /\ i_vbv_buffer_size (rc (param e)) = i_vbv_buffer_size (rc p)
        /\ b_repeat_headers (param e) = 1
        /\ b_annexb (param e) = 1).
Proof.
  intros Hkeep. cbv zeta.
  assert (Hcarry : 0 <= (x264_param_apply_profile E
                           (configure
                              (x264_param_default_preset E (param uninit)
                                 (chars preset) "zerolatency").2 p) "high").1 ->
                   carries p (x264_param_apply_profile E
                                (configure
                                   (x264_param_default_preset E (param uninit)
                                      (chars preset) "zerolatency").2 p)
                                "high").2).
  { destruct (x264_param_apply_profile E _ "high") as [r ep] eqn:Hprofile.
    cbn. intros Hr.
    pose proof (Hkeep _ _ _ Hprofile Hr) as Hsame.
    rewrite configure_overrides in Hsame. unfold overrides in Hsame.
    injection Hsame as ? ? ? ? ? ? ? ? ? ? ? ?.
    unfold carries. repeat split; assumption. }
  split.
  - destruct (enc_new_calls uninit p preset w) as (new & Hlog & Hopen).
    exists new. split; [exact Hlog |].
    apply Forall_forall. intros [] Hin; cbn; try done.
    destruct (Hopen _ Hin) as [-> Hr]. by apply Hcarry.
  - intros l e Hnew.
    destruct (enc_new_session uninit p preset w l e Hnew)
      as (_ & _ & Hpro & -> & _).
    by apply Hcarry.
Qed.


(** [enc_close] releases the engine handle and the session structure. *)
Lemma enc_close_run (e_addr : loc) (e : Encoder) (w : world X) :
  enc_close E e_addr e w
  = (None,
     mk_world (live w ∖ {[ e_addr ]}) (x264_encoder_close E (x264 w) (h e))
              (calls w ++ [Call_encoder_close (h e)])).
Proof. reflexivity. Qed.

(** C9. [enc_new] stores through [rc] only when it returns NULL, and
    then one of its four codes; [enc_encode] stores only when the size the
    engine returned is zero or less, and then ERR_ENCODE; [enc_close]
    never stores.  After a call that succeeds, the caller's variable holds
    the value [v] it held before. *)
Theorem rc_written_only_on_failure :
  (forall (uninit : Encoder) (p : x264_param_t) (preset : cstring)
          (w : world X) (v : Z),
      let out := enc_new E uninit p preset w in
      match out.1.1 with
      | Some _ => out.1.2 = None /\ rc_after v out.1.2 = v
      | None => out.1.2 ∈ [Some ERR_DEFAULT_PRESET; Some ERR_APPLY_PROFILE;
                           Some ERR_ALLOC_PICTURE; Some ERR_OPEN_ENGINE]
      end)
  /\ (forall (e : Encoder) (y cb cr : ptr) (w : world X) (v : Z),
        let out := enc_encode E e y cb cr w in
        exists pic : x264_picture_t,
          calls out.2 = calls w ++ [Call_encoder_encode (h e) pic]
          /\ if (frame_size (x264_encoder_encode E (x264 w) (h e) pic).1 <=? 0)
             then out.1.2 = Some ERR_ENCODE /\ rc_after v out.1.2 = ERR_ENCODE
             else out.1.2 = None /\ rc_after v out.1.2 = v)
  /\ (forall (e_addr : loc) (e : Encoder) (w : world X) (v : Z),
        let out := enc_close E e_addr e w in
        out.1 = None /\ rc_after v out.1 = v).
Proof.
  split; [| split].
  - intros uninit p preset w v. cbv zeta.
    pose proof (enc_new_run uninit p preset w) as Hrun. cbv zeta in Hrun.
    rewrite Hrun.
    repeat (destruct (_ <? 0); [cbn; one_of_codes |]).
    destruct (x264_encoder_open E _ _).1 as [hd |]; cbn; [done | one_of_codes].
  - intros e y cb cr w v. cbv zeta.
    destruct (enc_encode_run e y cb cr w) as (pic & _ & _ & _ & _ & Hrun).
    cbv zeta in Hrun. rewrite Hrun. cbn. exists pic. split; [done |].
    destruct (_ <=? 0); done.
  - intros e_addr e w v. cbv zeta. rewrite enc_close_run. done.
Qed.

(** The fields after a request that is not a no-op, and the one call
    made: the engine receives the parameters with the five fields already
    written.  The VBV maximum is the converted bitrate plus 5000, in the
    unit of the converted bitrate. *)
Lemma apply_target_bitrate_update
  (e : Encoder) (target_bitrate : Z) (w : world X) :
  is_noop e target_bitrate = false ->
  let k := target_bitrate ÷ 1000 in
  let out := apply_target_bitrate E e target_bitrate w in
  let e' := out.1.2 in
  i_bitrate (rc (param e')) = k
  /\ f_rate_tolerance (rc (param e')) = 0.1%Q
  /\ i_vbv_max_bitrate (rc (param e')) = k + 5000
  /\ i_vbv_buffer_size (rc (param e')) = k + 5000
  /\ f_vbv_buffer_init (rc (param e')) = 0.6%Q
  /\ calls out.2 = calls w ++ [Call_encoder_reconfig (h e) (param e')]
  /\ out.1.1 = (x264_encoder_reconfig E (x264 w) (h e) (param e')).1.
Proof.
  intros Hn.
  pose proof (apply_target_bitrate_push e target_bitrate w Hn) as Hrun.
  cbv zeta in *.
  destruct (x264_encoder_reconfig E (x264 w) (h e)
              (param (retargeted (target_bitrate ÷ 1000) e))) as [r x'] eqn:Her.
  rewrite Hrun. cbn [fst snd]. rewrite Her. done.
Qed.

End Properties.

(* ===================================================================== *)
(** ** The bridge on the scripted engine *)
(* ===================================================================== *)

(** The scripted engine's profile step returns the configuration it was
    given. *)
Lemma fake_profile_keeps_overrides : profile_keeps_overrides Fake.scripted.
Proof.
  intros p p' r Hp _. cbn in Hp.
  destruct (6 <=? i_csp p); injection Hp as _ <-; reflexivity.
Defined.

Lemma apply_target_bitrate_noop_witness :
  (i_bitrate (rc (param Fake.session)) = 2000999 ÷ 1000
   \/ 2000999 ÷ 1000 <= 1)
  /\ (apply_target_bitrate Fake.scripted Fake.session 2000999 (Fake.start Fake.good)
      = (0, Fake.session, Fake.start Fake.good)
      /\ apply_target_bitrate Fake.scripted Fake.session 0 (Fake.start Fake.good)
         = (0, Fake.session, Fake.start Fake.good)).
Proof.
  split.
  - left. reflexivity.
  - apply (apply_target_bitrate_noop Fake.scripted Fake.session 2000999).
    left. reflexivity.
Defined.

Lemma apply_target_bitrate_rejected_witness :
  (i_bitrate (rc (param Fake.session)) <> 3000000 ÷ 1000
   /\ 1 < 3000000 ÷ 1000
   /\ (x264_encoder_reconfig Fake.scripted Fake.rejecting (h Fake.session)
         (param (apply_target_bitrate Fake.scripted Fake.session 3000000
                   (Fake.start Fake.rejecting)).1.2)).1 < 0)
  /\ (apply_target_bitrate Fake.scripted Fake.session 3000000
        (Fake.start Fake.rejecting)).1.1 < 0
  /\ i_bitrate (rc (param (apply_target_bitrate Fake.scripted Fake.session 3000000
                             (Fake.start Fake.rejecting)).1.2)) = 3000.
Proof.
  assert (H1 : i_bitrate (rc (param Fake.session)) <> 3000000 ÷ 1000)
    by discriminate.
  assert (H2 : 1 < 3000000 ÷ 1000) by reflexivity.
  assert (H3 : (x264_encoder_reconfig Fake.scripted Fake.rejecting (h Fake.session)
                  (param (apply_target_bitrate Fake.scripted Fake.session 3000000
                            (Fake.start Fake.rejecting)).1.2)).1 < 0)
    by reflexivity.
  split; [exact (conj H1 (conj H2 H3)) |].
  destruct (apply_target_bitrate_rejected Fake.scripted Fake.session 3000000
              (Fake.start Fake.rejecting) H1 H2 H3)
    as (_ & Hneg & Hrate & _).
  split; [exact Hneg | exact Hrate].
Defined.

Lemma enc_new_configuration_witness :
  profile_keeps_overrides Fake.scripted
  /\ (enc_new Fake.scripted Fake.recycled_block Fake.hd_params Fake.veryfast
        (Fake.start Fake.good)).1.1 = Some (6%positive, Fake.opened)
  /\ i_width (param Fake.opened) = 1280
  /\ i_fps_den (param Fake.opened) = 1.
Proof.
  split; [exact fake_profile_keeps_overrides |].
  assert (Hnew : (enc_new Fake.scripted Fake.recycled_block Fake.hd_params
                    Fake.veryfast (Fake.start Fake.good)).1.1
                 = Some (6%positive, Fake.opened))
    by (vm_compute; reflexivity).
  split; [exact Hnew |].
  destruct (enc_new_configuration Fake.scripted Fake.recycled_block Fake.hd_params
              Fake.veryfast (Fake.start Fake.good)
              fake_profile_keeps_overrides) as [_ Hcfg].
  destruct (Hcfg 6%positive Fake.opened Hnew) as (_ & Hw & _ & _ & Hden & _).
  split; [exact Hw | exact Hden].
Defined.


(** C3. A session configured at 2000 kbit/s is asked for 3,000,000 bits
    per second.  The request is converted to 3000; the bitrate becomes
    3000, the tolerance 0.1 and the initial fullness 0.6, and the engine is
    then called with these parameters.  The VBV maximum and the buffer
    size, however, become 8000, that is 3000 plus 5000: half of RC_MARGIN
    (10000) taken in the unit of the converted value, kbit/s.  They are not
    3005, which is 3000 kbit/s plus half of a margin of 10 kbit/s. *)
Theorem apply_target_bitrate_margin_at_3000000 :
  let out := apply_target_bitrate Fake.scripted Fake.session 3000000
               (Fake.start Fake.good) in
  let e' := out.1.2 in
  is_noop Fake.session 3000000 = false
  /\ out.1.1 = 0
  /\ i_bitrate (rc (param e')) = 3000
  /\ f_rate_tolerance (rc (param e')) = 0.1%Q
  /\ i_vbv_max_bitrate (rc (param e')) = 8000
  /\ i_vbv_max_bitrate (rc (param e')) <> 3000 + 10 ÷ 2
  /\ i_vbv_buffer_size (rc (param e')) = 8000
  /\ f_vbv_buffer_init (rc (param e')) = 0.6%Q
  /\ calls out.2 = [Call_encoder_reconfig (h Fake.session) (param e')].
Proof.
  cbv zeta. repeat split; try reflexivity. discriminate.
Qed.

(** C4. [enc_new] succeeds on a 1280x720 configuration with the preset
    "veryfast", in a block that [malloc] recycled and whose
    [force_key_frame] word holds 1.  The session it returns has the flag
    set: no line of [enc_new] writes the field, and only in a block of
    zeros would the same call return a session with the flag clear.  The
    first encode call on the session therefore submits an IDR picture,
    though nobody asked for a key frame. *)
Theorem enc_new_flag_in_recycled_block :
  let out := enc_new Fake.scripted Fake.recycled_block Fake.hd_params
               Fake.veryfast (Fake.start Fake.good) in
  out.1 = (Some (6%positive, Fake.opened), None)
  /\ force_key_frame Fake.opened = 1
  /\ flag_set Fake.opened = true
  /\ (enc_new Fake.scripted Fake.zero_block Fake.hd_params Fake.veryfast
        (Fake.start Fake.good)).1
     = (Some (6%positive, set_force_key_frame 0 Fake.opened), None)
  /\ exists pic : x264_picture_t,
       calls (enc_encode Fake.scripted Fake.opened NULL NULL NULL out.2).2
       = calls out.2 ++ [Call_encoder_encode (h Fake.opened) pic]
       /\ i_type pic = X264_TYPE_IDR.
Proof.
  cbv zeta. split; [vm_compute; reflexivity |].
  split; [reflexivity |]. split; [reflexivity |].
  split; [vm_compute; reflexivity |].
  destruct (enc_encode_run Fake.scripted Fake.opened NULL NULL NULL
              (enc_new Fake.scripted Fake.recycled_block Fake.hd_params
                 Fake.veryfast (Fake.start Fake.good)).2)
    as (pic & Hty & _ & _ & _ & Hrun).
  cbv zeta in Hrun. rewrite Hrun. exists pic. split; [reflexivity | exact Hty].
Qed.

(* ===================================================================== *)
(** ** Further properties of the bridge *)
(* ===================================================================== *)

Section Lifecycle.

Context {X : Type} (E : engine X).

(** *** [enc_encode], step by step *)

(** The whole of one [enc_encode] run, with the picture written out: the
    session's descriptor with planes 0 to 2 rebound and the type chosen. *)
Lemma enc_encode_full (e : Encoder) (y cb cr : ptr) (w : world X) :
  let pic :=
    set_i_type (if flag_set e then X264_TYPE_IDR else X264_TYPE_AUTO)
      (set_plane 2%fin cr (set_plane 1%fin cb (set_plane 0%fin y (pic_in e)))) in
  let o := (x264_encoder_encode E (x264 w) (h e) pic).1 in
  let x' := (x264_encoder_encode E (x264 w) (h e) pic).2 in
  enc_encode E e y cb cr w
  = (mk_Slice (if frame_size o <=? 0 then NULL else first_payload (nal o))
              (frame_size o),
     mk_Encoder (h e) pic (param e) 0,
     (if frame_size o <=? 0 then Some ERR_ENCODE else None),
     mk_world (live w) x' (calls w ++ [Call_encoder_encode (h e) pic])).
Proof.
  destruct e as [hd pic ep fk]. unfold flag_set. cbv zeta. run.
  cbn [h pic_in param force_key_frame set_pic_in set_force_key_frame
       fst snd live x264 calls data_len].
  destruct (truthy fk);
    cbn [h pic_in param force_key_frame set_pic_in set_force_key_frame];
    destruct (x264_encoder_encode E (x264 w) hd _) as [o x'];
    cbn [fst snd frame_size nal];
    destruct (frame_size o <=? 0); reflexivity.
Qed.

(** X1. [enc_encode] touches nothing but the three plane pointers, the
    frame type and the flag: the engine handle, the whole configuration,
    the heap, and in the picture the presentation time, the colour space,
    the plane count, the strides, the fourth plane pointer and the fields
    the bridge never names are after the call what they were before,
    whatever the engine returned. *)
Theorem enc_encode_frame (e : Encoder) (y cb cr : ptr) (w : world X) :
  let out := enc_encode E e y cb cr w in
  let e' := out.1.1.2 in
  h e' = h e
  /\ param e' = param e
  /\ live out.2 = live w
  /\ i_pts (pic_in e') = i_pts (pic_in e)
  /\ pic_other (pic_in e') = pic_other (pic_in e)
  /\ img_i_csp (img (pic_in e')) = img_i_csp (img (pic_in e))
  /\ i_plane (img (pic_in e')) = i_plane (img (pic_in e))
  /\ i_stride (img (pic_in e')) = i_stride (img (pic_in e))
  /\ plane (img (pic_in e')) !!! 3%fin = plane (img (pic_in e)) !!! 3%fin.
Proof.
  pose proof (enc_encode_full e y cb cr w) as Hrun. cbv zeta in *.
  rewrite Hrun. cbn [fst snd h param pic_in live].
  destruct (planes_bound (pic_in e) y cb cr) as (_ & _ & _ & H3).
  repeat split; try reflexivity. exact H3.
Qed.

(** X2. The picture [enc_encode] hands to the engine is the session's own
    descriptor, as it stands after the call, and its first three plane
    pointers are the caller's [y], [cb] and [cr]: the planes are bound,
    not copied, and stay bound in the session. *)
Theorem enc_encode_binds_planes (e : Encoder) (y cb cr : ptr) (w : world X) :
  let out := enc_encode E e y cb cr w in
  let e' := out.1.1.2 in
  calls out.2 = calls w ++ [Call_encoder_encode (h e) (pic_in e')]
  /\ plane (img (pic_in e')) !!! 0%fin = y
  /\ plane (img (pic_in e')) !!! 1%fin = cb
  /\ plane (img (pic_in e')) !!! 2%fin = cr.
Proof.
  pose proof (enc_encode_full e y cb cr w) as Hrun. cbv zeta in *.
  rewrite Hrun. cbn [fst snd pic_in calls].
  destruct (planes_bound (pic_in e) y cb cr) as (H0 & H1 & H2 & _).
  repeat split; try reflexivity; assumption.
Qed.

(** X3. A slice whose length is zero or less has a NULL data pointer:
    on failure [enc_encode] returns before it reads the NAL array. *)
Theorem enc_encode_failure_slice (e : Encoder) (y cb cr : ptr) (w : world X) :
  let s := (enc_encode E e y cb cr w).1.1.1 in
  data_len s <= 0 ->
  data s = NULL /\ (enc_encode E e y cb cr w).1.2 = Some ERR_ENCODE.
Proof.
  pose proof (enc_encode_full e y cb cr w) as Hrun. cbv zeta in *.
  rewrite Hrun. cbn [fst snd data data_len]. intros Hlen.
  apply Z.leb_le in Hlen. rewrite Hlen. done.
Qed.

(** X4. A key-frame request is honoured once.  Of two encode calls in a
    row on a session, both reach the engine on the session's handle, and
    the second picture has type AUTO whatever the flag was before the first
    call and whatever the engine made of the first picture. *)
Theorem enc_encode_twice
  (e : Encoder) (y cb cr y' cb' cr' : ptr) (w : world X) :
  let out1 := enc_encode E e y cb cr w in
  let out2 := enc_encode E out1.1.1.2 y' cb' cr' out1.2 in
  exists pic1 pic2 : x264_picture_t,
    calls out2.2
    = calls w ++ [Call_encoder_encode (h e) pic1;
                  Call_encoder_encode (h e) pic2]
    /\ i_type pic1 = (if flag_set e then X264_TYPE_IDR else X264_TYPE_AUTO)
    /\ i_type pic2 = X264_TYPE_AUTO
    /\ flag_set out2.1.1.2 = false.
Proof.
  cbv zeta.
  pose proof (enc_encode_full e y cb cr w) as Hrun1. cbv zeta in Hrun1.
  rewrite Hrun1. cbn [fst snd].
  match goal with
  | |- context [enc_encode E ?e1 y' cb' cr' ?w1] =>
      pose proof (enc_encode_full e1 y' cb' cr' w1) as Hrun2
  end.
  cbv zeta in Hrun2. rewrite Hrun2. cbn [fst snd calls h].
  eexists _, _. split; [rewrite <- app_assoc; reflexivity |].
  repeat split.
Qed.

(** X5. A bitrate change does not reach the next frame: the encode call
    that follows it submits, on the same handle, the very picture it would
    have submitted had the bitrate not been touched. *)
Theorem apply_target_bitrate_then_encode
  (e : Encoder) (target_bitrate : Z) (y cb cr : ptr) (w : world X) :
  let changed := apply_target_bitrate E e target_bitrate w in
  exists pic : x264_picture_t,
    calls (enc_encode E changed.1.2 y cb cr changed.2).2
    = calls changed.2 ++ [Call_encoder_encode (h e) pic]
    /\ calls (enc_encode E e y cb cr w).2
       = calls w ++ [Call_encoder_encode (h e) pic].
Proof.
  cbv zeta.
  assert (Hsame : let e' := (apply_target_bitrate E e target_bitrate w).1.2 in
                  h e' = h e /\ pic_in e' = pic_in e
                  /\ force_key_frame e' = force_key_frame e).
  { destruct (is_noop e target_bitrate) eqn:Hn.
    - rewrite (apply_target_bitrate_skip E e target_bitrate w Hn). done.
    - pose proof (apply_target_bitrate_push E e target_bitrate w Hn) as Hrun.
      cbv zeta in Hrun.
      destruct (x264_encoder_reconfig E _ _ _) as [r x'].
      rewrite Hrun. done. }
  cbv zeta in Hsame. destruct Hsame as (Hh & Hpic & Hflag).
  pose proof (enc_encode_full e y cb cr w) as Hrun1. cbv zeta in Hrun1.
  match goal with
  | |- context [enc_encode E ?e1 y cb cr ?w1] =>
      pose proof (enc_encode_full e1 y cb cr w1) as Hrun2
  end.
  cbv zeta in Hrun2. rewrite Hrun1, Hrun2. cbn [snd calls].
  unfold flag_set. rewrite Hh, Hpic, Hflag.
  eexists. split; reflexivity.
Qed.

(** *** Bitrate requests *)

(** Truncating division by 1000 is at most 1 exactly below 2000. *)
Lemma quot_1000_le_1 (z : Z) : z ÷ 1000 <= 1 <-> z < 2000.
Proof.
  destruct (Z_le_gt_dec 0 z) as [Hpos | Hneg].
  - rewrite Z.quot_div_nonneg by lia. split; intros Hz.
    + destruct (Z_lt_ge_dec z 2000) as [| Hge]; [done |].
      assert (2 <= z / 1000) by (apply Z.div_le_lower_bound; lia). lia.
    + assert (z / 1000 < 2) by (apply Z.div_lt_upper_bound; lia). lia.
  - split; [lia |]. intros _.
    replace z with (- (- z)) by lia.
    rewrite Z.quot_opp_l by lia. rewrite Z.quot_div_nonneg by lia.
    pose proof (Z.div_pos (- z) 1000). lia.
Qed.

(** X6. Every request below 2000 bits per second, negative ones
    included, is dropped: [apply_target_bitrate] returns 0, the session is
    as it was and the engine is not called. *)
Theorem apply_target_bitrate_below_2000
  (e : Encoder) (target_bitrate : Z) (w : world X) :
  target_bitrate < 2000 ->
  apply_target_bitrate E e target_bitrate w = (0, e, w).
Proof.
  intros Hlow. apply apply_target_bitrate_skip, is_noop_spec. right.
  by apply quot_1000_le_1.
Qed.

(** X7. The engine is reconfigured exactly when the request is at least
    2000 bits per second and its value in kbit/s differs from the
    configured bitrate; it is then called once, on the session's handle.
    [apply_target_bitrate] makes no other engine call and neither
    allocates nor releases memory. *)
Theorem apply_target_bitrate_reaches_engine
  (e : Encoder) (target_bitrate : Z) (w : world X) :
  let out := apply_target_bitrate E e target_bitrate w in
  live out.2 = live w
  /\ calls out.2
     = calls w ++ (if (2000 <=? target_bitrate)
                      && negb (i_bitrate (rc (param e)) =? target_bitrate ÷ 1000)
                   then [Call_encoder_reconfig (h e) (param out.1.2)]
                   else []).
Proof.
  cbv zeta. destruct (is_noop e target_bitrate) eqn:Hn.
  - rewrite (apply_target_bitrate_skip E e target_bitrate w Hn). cbn [fst snd].
    apply is_noop_spec in Hn. split; [reflexivity |].
    destruct Hn as [Heq | Hle].
    + apply Z.eqb_eq in Heq. rewrite Heq, andb_false_r, app_nil_r. reflexivity.
    + apply quot_1000_le_1 in Hle.
      destruct (Z.leb_spec 2000 target_bitrate); [lia |].
      cbn. rewrite app_nil_r. reflexivity.
  - pose proof (apply_target_bitrate_push E e target_bitrate w Hn) as Hrun.
    cbv zeta in Hrun.
    destruct (x264_encoder_reconfig E _ _ _) as [r x'].
    rewrite Hrun. cbn [fst snd live calls]. split; [reflexivity |].
    apply is_noop_false in Hn. destruct Hn as [Hne Hk].
    assert (Hge : 2000 <= target_bitrate).
    { destruct (Z_lt_ge_dec target_bitrate 2000) as [Hlt |]; [| lia].
      apply quot_1000_le_1 in Hlt. lia. }
    apply Z.leb_le in Hge. apply Z.eqb_neq in Hne. rewrite Hge, Hne.
    reflexivity.
Qed.

(** X8. Requests are told apart by their value in whole kbit/s only: two
    requests with the same quotient by 1000 have the same effect. *)
Theorem apply_target_bitrate_same_kbit
  (e : Encoder) (b1 b2 : Z) (w : world X) :
  b1 ÷ 1000 = b2 ÷ 1000 ->
  apply_target_bitrate E e b1 w = apply_target_bitrate E e b2 w.
Proof.
  intros Hq. unfold apply_target_bitrate. rewrite Hq. reflexivity.
Qed.

(** X9. Asking twice for the same bitrate reaches the engine at most
    once: whatever the first call did, and even when the engine rejected
    it, the second call returns 0 and changes nothing. *)
Theorem apply_target_bitrate_repeat
  (e : Encoder) (target_bitrate : Z) (w : world X) :
  let first := apply_target_bitrate E e target_bitrate w in
  apply_target_bitrate E first.1.2 target_bitrate first.2
  = (0, first.1.2, first.2).
Proof.
  cbv zeta. destruct (is_noop e target_bitrate) eqn:Hn.
  - rewrite (apply_target_bitrate_skip E e target_bitrate w Hn). cbn [fst snd].
    by apply apply_target_bitrate_skip.
  - pose proof (apply_target_bitrate_push E e target_bitrate w Hn) as Hrun.
    cbv zeta in Hrun.
    destruct (x264_encoder_reconfig E _ _ _) as [r x'].
    rewrite Hrun. cbn [fst snd].
    apply apply_target_bitrate_skip, is_noop_spec. left. reflexivity.
Qed.

(** X10. No overflow: when the request and the three integer
    rate-control fields of the session are C [int]s, so are the three
    fields after the call. *)
Theorem apply_target_bitrate_in_range
  (e : Encoder) (target_bitrate : Z) (w : world X) :
  int_range target_bitrate ->
  int_range (i_bitrate (rc (param e))) ->
  int_range (i_vbv_max_bitrate (rc (param e))) ->
  int_range (i_vbv_buffer_size (rc (param e))) ->
  let e' := (apply_target_bitrate E e target_bitrate w).1.2 in
  int_range (i_bitrate (rc (param e')))
  /\ int_range (i_vbv_max_bitrate (rc (param e')))
  /\ int_range (i_vbv_buffer_size (rc (param e'))).
Proof.
  intros Hb H1 H2 H3. cbv zeta.
  destruct (is_noop e target_bitrate) eqn:Hn.
  - rewrite (apply_target_bitrate_skip E e target_bitrate w Hn). done.
  - pose proof (apply_target_bitrate_push E e target_bitrate w Hn) as Hrun.
    cbv zeta in Hrun.
    destruct (x264_encoder_reconfig E _ _ _) as [r x'].
    rewrite Hrun. cbn.
    destruct (vbv_max_in_range target_bitrate Hb) as [Hk Hmax]. done.
Qed.

(** X11. Three facts about the rate-control block survive every bitrate
    request, accepted by the engine or not: a bitrate above 1, a VBV
    buffer size equal to the VBV maximum, and a VBV maximum above the
    bitrate. *)
Theorem apply_target_bitrate_invariant
  (e : Encoder) (target_bitrate : Z) (w : world X) :
  1 < i_bitrate (rc (param e)) ->
  i_vbv_buffer_size (rc (param e)) = i_vbv_max_bitrate (rc (param e)) ->
  i_bitrate (rc (param e)) < i_vbv_max_bitrate (rc (param e)) ->
  let e' := (apply_target_bitrate E e target_bitrate w).1.2 in
  1 < i_bitrate (rc (param e'))
  /\ i_vbv_buffer_size (rc (param e')) = i_vbv_max_bitrate (rc (param e'))
  /\ i_bitrate (rc (param e')) < i_vbv_max_bitrate (rc (param e')).
Proof.
  intros H1 H2 H3. cbv zeta.
  destruct (is_noop e target_bitrate) eqn:Hn.
  - rewrite (apply_target_bitrate_skip E e target_bitrate w Hn). done.
  - pose proof (apply_target_bitrate_push E e target_bitrate w Hn) as Hrun.
    cbv zeta in Hrun.
    destruct (x264_encoder_reconfig E _ _ _) as [r x'].
    rewrite Hrun. cbn. apply is_noop_false in Hn.
    rewrite RC_MARGIN_half. lia.
Qed.

(** *** Opening and closing *)


(** X12. The code [enc_new] stores names the step that failed: the
    preset code when the preset step answers below zero; the profile code
    when the preset step passed and the profile step answers below zero;
    the picture code when both passed and the picture allocation answers
    below zero; the engine code when all three passed and the engine
    returns a NULL handle; and nothing is stored exactly when all three
    passed and the handle is not NULL. *)
Theorem enc_new_code_names_step
  (uninit : Encoder) (p : x264_param_t) (preset : cstring) (w : world X) :
  let pre := x264_param_default_preset E (param uninit) (chars preset)
               "zerolatency" in
  let pro := x264_param_apply_profile E (configure pre.2 p) "high" in
  let alc := x264_picture_alloc E (x264 w) (i_csp p) (i_width p) (i_height p) in
  let opn := x264_encoder_open E (x264 w) pro.2 in
  let stored := (enc_new E uninit p preset w).1.2 in
  (stored = Some ERR_DEFAULT_PRESET <-> pre.1 < 0)
  /\ (stored = Some ERR_APPLY_PROFILE <-> 0 <= pre.1 /\ pro.1 < 0)
  /\ (stored = Some ERR_ALLOC_PICTURE
      <-> 0 <= pre.1 /\ 0 <= pro.1 /\ alc.1 < 0)
  /\ (stored = Some ERR_OPEN_ENGINE
      <-> 0 <= pre.1 /\ 0 <= pro.1 /\ 0 <= alc.1 /\ opn.1 = NULL)
  /\ (stored = None
      <-> 0 <= pre.1 /\ 0 <= pro.1 /\ 0 <= alc.1 /\ opn.1 <> NULL).
Proof.
  cbv zeta.
  pose proof (enc_new_run E uninit p preset w) as Hrun. cbv zeta in Hrun.
  rewrite Hrun. clear Hrun.
  destruct (Z.ltb_spec (x264_param_default_preset E (param uninit)
                          (chars preset) "zerolatency").1 0) as [H1 | H1];
    [cbn; repeat split; intros; try done; lia |].
  destruct (Z.ltb_spec
              (x264_param_apply_profile E
                 (configure (x264_param_default_preset E (param uninit)
                               (chars preset) "zerolatency").2 p) "high").1 0)
    as [H2 | H2]; [cbn; repeat split; intros; try done; lia |].
  destruct (Z.ltb_spec (x264_picture_alloc E (x264 w) (i_csp p) (i_width p)
                          (i_height p)).1 0) as [H3 | H3];
    [cbn; repeat split; intros; try done; lia |].
  destruct (x264_encoder_open E _ _).1 as [hd |]; cbn;
    repeat split; intros; try done; try lia;
    repeat match goal with H : _ /\ _ |- _ => destruct H end; done.
Qed.


(** X14. [enc_new] takes the preset string over: on every path, failing
    or not, the string's block is released when [enc_new] returns. *)
Theorem enc_new_releases_preset
  (uninit : Encoder) (p : x264_param_t) (preset : cstring) (w : world X) :
  addr preset ∉ live (enc_new E uninit p preset w).2.
Proof.
  pose proof (enc_new_live E uninit p preset w) as Hlive. cbv zeta in Hlive.
  rewrite Hlive.
  destruct (enc_new E uninit p preset w).1.1 as [[l e] |];
    intros Hin; apply elem_of_difference in Hin;
    rewrite elem_of_singleton in Hin; tauto.
Qed.

(** X15. When [enc_new] succeeds on a preset string that is a live
    block, the session occupies a block that was not live before and is
    not the string's; the heap is the old one with the string replaced by
    the session; the handle is not NULL; and plane 0 of the session's
    picture points to the picture storage, which is no longer live: the
    pointer dangles until [enc_encode] binds the planes. *)
Theorem enc_new_success_heap
  (uninit : Encoder) (p : x264_param_t) (preset : cstring) (w : world X)
  (l : loc) (e : Encoder) :
  addr preset ∈ live w ->
  (enc_new E uninit p preset w).1.1 = Some (l, e) ->
  (l ∉ live w)
  /\ l <> addr preset
  /\ live (enc_new E uninit p preset w).2
     = {[ l ]} ∪ (live w ∖ {[ addr preset ]})
  /\ h e <> NULL
  /\ exists storage : loc,
       plane (img (pic_in e)) !!! 0%fin = Some storage
       /\ storage <> l
       /\ storage ∉ live (enc_new E uninit p preset w).2.
Proof.
  intros Hpreset Hnew.
  pose proof (enc_new_live E uninit p preset w) as Hlive. cbv zeta in Hlive.
  rewrite Hnew in Hlive. rewrite Hlive. clear Hlive.
  pose proof (enc_new_run E uninit p preset w) as Hrun. cbv zeta in Hrun.
  rewrite (surjective_pairing (enc_new E uninit p preset w).1) in Hrun.
  rewrite Hnew in Hrun.
  pose proof (is_fresh (live w)) as Hfresh.
  set (a := fresh (live w)) in *.
  pose proof (is_fresh (({[ a ]} ∪ live w) ∖ {[ addr preset ]})) as Hstorage.
  set (sto := fresh (({[ a ]} ∪ live w) ∖ {[ addr preset ]})) in *.
  repeat (destruct (_ <? 0); [discriminate Hrun |]).
  destruct (x264_encoder_open E _ _).1 as [hd |]; [| discriminate Hrun].
  injection Hrun as Hl He _. subst l e.
  assert (Hne : a <> addr preset) by (intros Heq; rewrite Heq in Hfresh; done).
  split; [exact Hfresh |]. split; [exact Hne |].
  split.
  { apply set_eq. intros x. rewrite elem_of_difference, !elem_of_union,
      elem_of_difference, !elem_of_singleton.
    split; [tauto |]. intros [-> | [? ?]]; tauto. }
  split; [done |].
  exists sto. cbn [pic_in].
  destruct ((x264_picture_alloc E (x264 w) (i_csp p) (i_width p)
               (i_height p)).2) as [t pts [csp np st pl] o].
  inv_vec pl. intros p0 p1 p2 p3. cbn.
  split; [reflexivity |]. split; [| exact Hstorage].
  intros Heq. apply Hstorage. rewrite Heq.
  apply elem_of_difference. rewrite elem_of_union, !elem_of_singleton.
  split; [by left | done].
Qed.

(** X16. Opening a session and closing it leaves nothing behind: the
    heap is the one before [enc_new] less the preset string, and the last
    engine call is the close of the handle the engine gave out. *)
Theorem enc_new_then_close
  (uninit : Encoder) (p : x264_param_t) (preset : cstring) (w : world X)
  (l : loc) (e : Encoder) :
  let opened := enc_new E uninit p preset w in
  opened.1.1 = Some (l, e) ->
  let closed := enc_close E l e opened.2 in
  live closed.2 = live w ∖ {[ addr preset ]}
  /\ calls closed.2 = calls opened.2 ++ [Call_encoder_close (h e)]
  /\ closed.1 = None.
Proof.
  cbv zeta. intros Hnew.
  pose proof (enc_new_live E uninit p preset w) as Hlive. cbv zeta in Hlive.
  rewrite Hnew in Hlive.
  destruct (enc_new_session E uninit p preset w l e Hnew) as (Hl & _).
  pose proof (is_fresh (live w)) as Hfresh. rewrite <- Hl in Hfresh.
  rewrite enc_close_run. cbn [fst snd live calls]. rewrite Hlive.
  split; [| done].
  by apply free_session_after_preset.
Qed.

(** The session of a successful [enc_new], written out. *)
Lemma enc_new_result (uninit : Encoder) (p : x264_param_t) (preset : cstring)
  (w : world X) (l : loc) (e : Encoder) :
  (enc_new E uninit p preset w).1.1 = Some (l, e) ->
  let pre := x264_param_default_preset E (param uninit) (chars preset)
               "zerolatency" in
  let pro := x264_param_apply_profile E (configure pre.2 p) "high" in
  let alc := x264_picture_alloc E (x264 w) (i_csp p) (i_width p) (i_height p) in
  let storage :=
    fresh (({[ fresh (live w) ]} ∪ live w) ∖ {[ addr preset ]}) in
  0 <= pro.1
  /\ e = mk_Encoder (x264_encoder_open E (x264 w) pro.2).1
                    (set_plane 0%fin (Some storage) alc.2)
                    pro.2 (force_key_frame uninit).
Proof.
  intros Hnew. cbv zeta.
  pose proof (enc_new_run E uninit p preset w) as Hrun. cbv zeta in Hrun.
  rewrite (surjective_pairing (enc_new E uninit p preset w).1) in Hrun.
  rewrite Hnew in Hrun.
  destruct (_ <? 0); [discriminate Hrun |].
  destruct (Z.ltb_spec
              (x264_param_apply_profile E
                 (configure (x264_param_default_preset E (param uninit)
                               (chars preset) "zerolatency").2 p) "high").1 0)
    as [| Hpro]; [discriminate Hrun |].
  destruct (_ <? 0); [discriminate Hrun |].
  destruct (x264_encoder_open E _ _).1 as [hd |]; [| discriminate Hrun].
  injection Hrun as _ He _. done.
Qed.

(** X17. The first frame after a successful [enc_new]: the picture that
    reaches the engine has the caller's three planes, and the colour
    space, plane count and strides that [x264_picture_alloc] computed at
    open time; its type is decided by the word that was in the session's
    block before [enc_new] ran. *)
Theorem enc_new_then_encode
  (uninit : Encoder) (p : x264_param_t) (preset : cstring) (w : world X)
  (l : loc) (e : Encoder) (y cb cr : ptr) :
  let opened := enc_new E uninit p preset w in
  opened.1.1 = Some (l, e) ->
  let layout :=
    img (x264_picture_alloc E (x264 w) (i_csp p) (i_width p) (i_height p)).2 in
  let out := enc_encode E e y cb cr opened.2 in
  exists pic : x264_picture_t,
    calls out.2 = calls opened.2 ++ [Call_encoder_encode (h e) pic]
    /\ plane (img pic) !!! 0%fin = y
    /\ plane (img pic) !!! 1%fin = cb
    /\ plane (img pic) !!! 2%fin = cr
    /\ img_i_csp (img pic) = img_i_csp layout
    /\ i_plane (img pic) = i_plane layout
    /\ i_stride (img pic) = i_stride layout
    /\ i_type pic = (if truthy (force_key_frame uninit)
                     then X264_TYPE_IDR else X264_TYPE_AUTO).
Proof.
  cbv zeta. intros Hnew.
  destruct (enc_new_result uninit p preset w l e Hnew) as [_ He].
  pose proof (enc_encode_full e y cb cr (enc_new E uninit p preset w).2) as Hrun.
  cbv zeta in Hrun. rewrite Hrun. cbn [snd calls].
  eexists. split; [reflexivity |].
  destruct (planes_bound (pic_in e) y cb cr) as (H0 & H1 & H2 & _).
  cbn [img set_i_type].
  do 3 (split; [assumption |]).
  rewrite He. unfold flag_set. cbn. done.
Qed.

(** X18. The bitrate [enc_new] is given is in the unit
    [apply_target_bitrate] converts to: over an engine whose profile step
    leaves the overridden fields alone, asking a freshly opened session
    for 1000 times the bitrate it was opened with is a no-op. *)
Theorem enc_new_then_same_bitrate
  (uninit : Encoder) (p : x264_param_t) (preset : cstring) (w w' : world X)
  (l : loc) (e : Encoder) :
  profile_keeps_overrides E ->
  (enc_new E uninit p preset w).1.1 = Some (l, e) ->
  apply_target_bitrate E e (1000 * i_bitrate (rc p)) w' = (0, e, w').
Proof.
  intros Hkeep Hnew.
  destruct (enc_new_result uninit p preset w l e Hnew) as [Hpro He].
  cbv zeta in Hpro, He.
  destruct (x264_param_apply_profile E _ "high") as [r ep] eqn:Hprofile.
  cbn in Hpro, He.
  pose proof (Hkeep _ _ _ Hprofile Hpro) as Hsame.
  rewrite configure_overrides in Hsame. unfold overrides in Hsame.
  injection Hsame as _ _ _ _ _ _ _ Hrate _ _ _ _.
  apply apply_target_bitrate_skip, is_noop_spec. left.
  rewrite He. cbn. rewrite Hrate.
  rewrite Z.mul_comm, Z.quot_mul by lia. reflexivity.
Qed.

End Lifecycle.

(** *** On the scripted engine *)

Lemma enc_encode_failure_slice_witness :
  data_len (enc_encode Fake.scripted Fake.session NULL NULL NULL
              (Fake.start Fake.good)).1.1.1 <= 0
  /\ data (enc_encode Fake.scripted Fake.session NULL NULL NULL
             (Fake.start Fake.good)).1.1.1 = NULL.
Proof.
  assert (Hlen : data_len (enc_encode Fake.scripted Fake.session NULL NULL NULL
                             (Fake.start Fake.good)).1.1.1 <= 0)
    by (vm_compute; discriminate).
  split; [exact Hlen |].
  exact (proj1 (enc_encode_failure_slice Fake.scripted Fake.session
                  NULL NULL NULL (Fake.start Fake.good) Hlen)).
Defined.

Lemma apply_target_bitrate_below_2000_witness :
  -5 < 2000
  /\ apply_target_bitrate Fake.scripted Fake.session (-5) (Fake.start Fake.good)
     = (0, Fake.session, Fake.start Fake.good).
Proof.
  split; [reflexivity |].
  apply (apply_target_bitrate_below_2000 Fake.scripted). reflexivity.
Defined.

Lemma apply_target_bitrate_same_kbit_witness :
  3000999 ÷ 1000 = 3000000 ÷ 1000
  /\ apply_target_bitrate Fake.scripted Fake.session 3000999
       (Fake.start Fake.good)
     = apply_target_bitrate Fake.scripted Fake.session 3000000
         (Fake.start Fake.good).
Proof.
  split; [reflexivity |].
  apply (apply_target_bitrate_same_kbit Fake.scripted). reflexivity.
Defined.

Lemma apply_target_bitrate_in_range_witness :
  (int_range 3000000
   /\ int_range (i_bitrate (rc (param Fake.session)))
   /\ int_range (i_vbv_max_bitrate (rc (param Fake.session)))
   /\ int_range (i_vbv_buffer_size (rc (param Fake.session))))
  /\ int_range (i_vbv_max_bitrate
                  (rc (param (apply_target_bitrate Fake.scripted Fake.session
                                3000000 (Fake.start Fake.good)).1.2))).
Proof.
  assert (H0 : int_range 3000000) by (split; discriminate).
  assert (H1 : int_range (i_bitrate (rc (param Fake.session))))
    by (split; discriminate).
  assert (H2 : int_range (i_vbv_max_bitrate (rc (param Fake.session))))
    by (split; discriminate).
  assert (H3 : int_range (i_vbv_buffer_size (rc (param Fake.session))))
    by (split; discriminate).
  split; [exact (conj H0 (conj H1 (conj H2 H3))) |].
  exact (proj1 (proj2 (apply_target_bitrate_in_range Fake.scripted Fake.session
                         3000000 (Fake.start Fake.good) H0 H1 H2 H3))).
Defined.

Lemma apply_target_bitrate_invariant_witness :
  (1 < i_bitrate (rc (param Fake.session))
   /\ i_vbv_buffer_size (rc (param Fake.session))
      = i_vbv_max_bitrate (rc (param Fake.session))
   /\ i_bitrate (rc (param Fake.session))
      < i_vbv_max_bitrate (rc (param Fake.session)))
  /\ 1 < i_bitrate
           (rc (param (apply_target_bitrate Fake.scripted Fake.session 3000000
                         (Fake.start Fake.rejecting)).1.2)).
Proof.
  assert (H1 : 1 < i_bitrate (rc (param Fake.session))) by reflexivity.
  assert (H2 : i_vbv_buffer_size (rc (param Fake.session))
               = i_vbv_max_bitrate (rc (param Fake.session))) by reflexivity.
  assert (H3 : i_bitrate (rc (param Fake.session))
               < i_vbv_max_bitrate (rc (param Fake.session))) by reflexivity.
  split; [exact (conj H1 (conj H2 H3)) |].
  exact (proj1 (apply_target_bitrate_invariant Fake.scripted Fake.session
                  3000000 (Fake.start Fake.rejecting) H1 H2 H3)).
Defined.

(** The scripted run that opens a session on [hd_params]. *)
Lemma fake_open :
  (enc_new Fake.scripted Fake.recycled_block Fake.hd_params Fake.veryfast
     (Fake.start Fake.good)).1.1 = Some (6%positive, Fake.opened).
Proof. vm_compute. reflexivity. Defined.

Lemma fake_preset_live : addr Fake.veryfast ∈ live (Fake.start Fake.good).
Proof. apply elem_of_singleton. reflexivity. Defined.

Lemma enc_new_success_heap_witness :
  (addr Fake.veryfast ∈ live (Fake.start Fake.good)
   /\ (enc_new Fake.scripted Fake.recycled_block Fake.hd_params Fake.veryfast
         (Fake.start Fake.good)).1.1 = Some (6%positive, Fake.opened))
  /\ 6%positive <> addr Fake.veryfast
  /\ h Fake.opened <> NULL.
Proof.
  split; [exact (conj fake_preset_live fake_open) |].
  destruct (enc_new_success_heap Fake.scripted Fake.recycled_block
              Fake.hd_params Fake.veryfast (Fake.start Fake.good)
              6%positive Fake.opened fake_preset_live fake_open)
    as (_ & Hne & _ & Hh & _).
  exact (conj Hne Hh).
Defined.

Lemma enc_new_then_close_witness :
  (enc_new Fake.scripted Fake.recycled_block Fake.hd_params Fake.veryfast
     (Fake.start Fake.good)).1.1 = Some (6%positive, Fake.opened)
  /\ live (enc_close Fake.scripted 6%positive Fake.opened
             (enc_new Fake.scripted Fake.recycled_block Fake.hd_params
                Fake.veryfast (Fake.start Fake.good)).2).2
     = live (Fake.start Fake.good) ∖ {[ addr Fake.veryfast ]}.
Proof.
  split; [exact fake_open |].
  exact (proj1 (enc_new_then_close Fake.scripted Fake.recycled_block
                  Fake.hd_params Fake.veryfast (Fake.start Fake.good)
                  6%positive Fake.opened fake_open)).
Defined.

Lemma enc_new_then_encode_witness :
  (enc_new Fake.scripted Fake.recycled_block Fake.hd_params Fake.veryfast
     (Fake.start Fake.good)).1.1 = Some (6%positive, Fake.opened)
  /\ exists pic : x264_picture_t,
       calls (enc_encode Fake.scripted Fake.opened (Some 11%positive)
                (Some 12%positive) (Some 13%positive)
                (enc_new Fake.scripted Fake.recycled_block Fake.hd_params
                   Fake.veryfast (Fake.start Fake.good)).2).2
       = calls (enc_new Fake.scripted Fake.recycled_block Fake.hd_params
                  Fake.veryfast (Fake.start Fake.good)).2
         ++ [Call_encoder_encode (h Fake.opened) pic]
       /\ plane (img pic) !!! 0%fin = Some 11%positive.
Proof.
  split; [exact fake_open |].
  destruct (enc_new_then_encode Fake.scripted Fake.recycled_block
              Fake.hd_params Fake.veryfast (Fake.start Fake.good)
              6%positive Fake.opened (Some 11%positive) (Some 12%positive)
              (Some 13%positive) fake_open)
    as (pic & Hlog & H0 & _).
  exists pic. exact (conj Hlog H0).
Defined.

Lemma enc_new_then_same_bitrate_witness :
  (profile_keeps_overrides Fake.scripted
   /\ (enc_new Fake.scripted Fake.recycled_block Fake.hd_params Fake.veryfast
         (Fake.start Fake.good)).1.1 = Some (6%positive, Fake.opened))
  /\ apply_target_bitrate Fake.scripted Fake.opened
       (1000 * i_bitrate (rc Fake.hd_params)) (Fake.start Fake.rejecting)
     = (0, Fake.opened, Fake.start Fake.rejecting).
Proof.
  split; [exact (conj fake_profile_keeps_overrides fake_open) |].
  exact (enc_new_then_same_bitrate Fake.scripted Fake.recycled_block
           Fake.hd_params Fake.veryfast (Fake.start Fake.good)
           (Fake.start Fake.rejecting) 6%positive Fake.opened
           fake_profile_keeps_overrides fake_open).
Defined.

(** *** The outcome of an encode call, and of a rejected bitrate change *)

Lemma enc_encode_outcome_witness :
  exists pic : x264_picture_t,
    calls (enc_encode Fake.scripted Fake.session NULL NULL NULL
             (Fake.start Fake.two_nals)).2
    = [Call_encoder_encode (h Fake.session) pic]
    /\ data (enc_encode Fake.scripted Fake.session NULL NULL NULL
               (Fake.start Fake.two_nals)).1.1.1 = Some 500%positive
    /\ data_len (enc_encode Fake.scripted Fake.session NULL NULL NULL
                   (Fake.start Fake.two_nals)).1.1.1 = 42.
Proof.
  destruct (enc_encode_outcome Fake.scripted Fake.session NULL NULL NULL
              (Fake.start Fake.two_nals)) as (pic & Hlog & _ & Hlen & _ & Hcase).
  exists pic. split; [exact Hlog |].
  cbn in Hcase. destruct Hcase as (_ & _ & _ & Hfirst).
  split.
  - exact (Hfirst (mk_nal 30 (Some 500%positive))
                  [mk_nal 12 (Some 530%positive)] eq_refl).
  - rewrite Hlen. reflexivity.
Defined.

(** C6, as stated, fails on a rejecting engine.  A session at 2000 kbit/s
    is asked for 3,000,000 bits per second (not a no-op) and the engine
    answers the reconfiguration with -1.  [apply_target_bitrate] returns
    that -1, which is the value of ERR_DEFAULT_PRESET and not
    ERR_BITRATE_RECONFIG: [bridge.h] defines that code and never produces
    it.  The attempted values are kept all the same. *)
Lemma apply_target_bitrate_rejected_code_counterexample :
  is_noop Fake.session 3000000 = false
  /\ (x264_encoder_reconfig Fake.scripted Fake.rejecting (h Fake.session)
        (param (apply_target_bitrate Fake.scripted Fake.session 3000000
                  (Fake.start Fake.rejecting)).1.2)).1 < 0
  /\ (apply_target_bitrate Fake.scripted Fake.session 3000000
        (Fake.start Fake.rejecting)).1.1 = -1
  /\ (apply_target_bitrate Fake.scripted Fake.session 3000000
        (Fake.start Fake.rejecting)).1.1 <> ERR_BITRATE_RECONFIG
  /\ (apply_target_bitrate Fake.scripted Fake.session 3000000
        (Fake.start Fake.rejecting)).1.1 = ERR_DEFAULT_PRESET
  /\ i_bitrate (rc (param (apply_target_bitrate Fake.scripted Fake.session
                             3000000 (Fake.start Fake.rejecting)).1.2)) = 3000.
Proof.
  repeat split; try reflexivity. discriminate.
Qed.
